(** * zotero-cli: the command layer ([zotero_cli/cli.py]) in Rocq

    A shallow embedding of the helpers of [cli.py] (file-extension lookup,
    the two identifier patterns, storage-directory discovery, the
    interactive [select] menu, item resolution and note editing), followed
    by the properties of the specification that concern them. *)

From Stdlib Require Import ZArith String Ascii List Bool Lia.
From stdpp Require Import base option list gmap strings pretty.

Local Open Scope string_scope.
Local Open Scope list_scope.
Local Open Scope Z_scope.

(** ** Python byte strings *)

Module PyStr.

(** [needle in hay] for two [str] values: some suffix of [hay] starts
    with [needle]. *)
Fixpoint contains (needle hay : string) : bool :=
  String.prefix needle hay
  || match hay with
     | EmptyString => false
     | String _ rest => contains needle rest
     end.

Definition starts_with_dot (s : string) : bool :=
  match s with
  | String c _ => Ascii.eqb c "."
  | EmptyString => false
  end.

(** [s.split('\n')[0]]: the text before the first line feed. *)
Fixpoint first_line (s : string) : string :=
  match s with
  | EmptyString => EmptyString
  | String c rest =>
      if Ascii.eqb c "010" then EmptyString else String c (first_line rest)
  end.

Fixpoint map_chars (f : ascii → ascii) (s : string) : string :=
  match s with
  | EmptyString => EmptyString
  | String c rest => String (f c) (map_chars f rest)
  end.

(** [all(cls(c) for c in s)] *)
Fixpoint all_chars (cls : ascii → bool) (s : string) : bool :=
  match s with
  | EmptyString => true
  | String c rest => cls c && all_chars cls rest
  end.

Definition in_range (lo hi c : ascii) : bool :=
  (nat_of_ascii lo <=? nat_of_ascii c)%nat
  && (nat_of_ascii c <=? nat_of_ascii hi)%nat.

Definition is_upper (c : ascii) : bool := in_range "A" "Z" c.
Definition is_lower (c : ascii) : bool := in_range "a" "z" c.
Definition is_digit (c : ascii) : bool := in_range "0" "9" c.

(** The class [\w] of an [re] pattern on [str] without flags. *)
Definition is_word (c : ascii) : bool :=
  is_lower c || is_upper c || is_digit c || Ascii.eqb c "_".

(** [str(n)] / ["{}".format(n)] for an integer. *)
Definition of_int (n : Z) : string := pretty n.

End PyStr.

(** ** The regular expressions of the module

    Both patterns are used through [re.match], which anchors at the start
    of the subject only.  A matcher takes the subject and gives the matched
    text with the unread rest, or [None]. *)

Module Re.

Definition matcher := string → option (string * string).

(** [[cls]{n}]: exactly [n] characters of the class. *)
Fixpoint class_rep (cls : ascii → bool) (n : nat) : matcher :=
  fun s =>
    match n with
    | O => Some (EmptyString, s)
    | S n' =>
        match s with
        | String c rest =>
            if cls c then
              match class_rep cls n' rest with
              | Some (m, r) => Some (String c m, r)
              | None => None
              end
            else None
        | EmptyString => None
        end
    end.

(** A literal character. *)
Definition lit (a : ascii) : matcher :=
  fun s =>
    match s with
    | String c rest => if Ascii.eqb c a then Some (String c EmptyString, rest) else None
    | EmptyString => None
    end.

(** Dot-star in final position: the longest run without a line feed. *)
Fixpoint dot_star (s : string) : string * string :=
  match s with
  | EmptyString => (EmptyString, EmptyString)
  | String c rest =>
      if Ascii.eqb c "010" then (EmptyString, s)
      else let '(m, r) := dot_star rest in (String c m, r)
  end.

End Re.

Definition id_char (c : ascii) : bool := PyStr.is_upper c || PyStr.is_digit c.
Definition profile_char (c : ascii) : bool := PyStr.is_lower c || PyStr.is_digit c.

(** [ID_PAT.match(s)], as a truth value: eight characters of [A-Z0-9]. *)
Definition ID_PAT_match (s : string) : bool :=
  match Re.class_rep id_char 8 s with
  | Some _ => true
  | None => false
  end.

(** [PROFILE_PAT.match(s)]: group 1 is eight characters of [a-z0-9], then
    a literal dot, then group 2 takes the rest of the line.  The result is
    the pair of groups of a match. *)
Definition PROFILE_PAT_match (s : string) : option (string * string) :=
  match Re.class_rep profile_char 8 s with
  | Some (g1, r1) =>
      match Re.lit "." r1 with
      | Some (_, r2) => Some (g1, fst (Re.dot_star r2))
      | None => None
      end
  | None => None
  end.

(** ** File extensions *)

Definition EXTENSION_MAP : gmap string string :=
  <["docbook" := "dbk"]> (<["latex" := "tex"]> ∅).

(** [get_extension] over an arbitrary extension table. *)
Definition get_extension_with (ext_map : gmap string string) (pandoc_fmt : string) : string :=
  if PyStr.contains "mark" pandoc_fmt then ".md"
  else match ext_map !! pandoc_fmt with
       | Some ext => ext
       | None => "." +:+ pandoc_fmt
       end.

Definition get_extension (pandoc_fmt : string) : string :=
  get_extension_with EXTENSION_MAP pandoc_fmt.

(** ** Exceptions and generators *)

Inductive exn :=
| KeyError (key : string)
| OSError
| ValueError (msg : string)
| IndexError
| AttributeError
| TypeError
| UsageError (msg : string)
| Abort.

(** What a consumer sees of a generator: the values yielded, in order, and
    the exception that ended it, if one did. *)
Record generated (A : Type) := Generated {
  yielded : list A;
  raised : option exn
}.
Arguments Generated {A} _ _.
Arguments yielded {A} _.
Arguments raised {A} _.

(** [seq[i]] on a list or tuple: indices count from the end when negative;
    [None] stands for [IndexError]. *)
Definition py_index {A} (l : list A) (i : Z) : option A :=
  let n := Z.of_nat (length l) in
  if (0 <=? i) && (i <? n) then l !! Z.to_nat i
  else if (- n <=? i) && (i <? 0) then l !! Z.to_nat (n + i)
  else None.

(** ** The file system, as [pathlib] reads it *)

Module Fs.

#[local] Unset Elimination Schemes.
Inductive node :=
| File
| Dir (entries : list (string * node)).
#[local] Set Elimination Schemes.

(** A path is its list of components below the root. *)
Abbreviation path := (list string).

Fixpoint child (name : string) (entries : list (string * node)) : option node :=
  match entries with
  | [] => None
  | (n, x) :: rest => if String.eqb n name then Some x else child name rest
  end.

Fixpoint lookup (root : node) (p : path) {struct p} : option node :=
  match p with
  | [] => Some root
  | name :: p' =>
      match root with
      | Dir entries =>
          match child name entries with
          | Some x => lookup x p'
          | None => None
          end
      | File => None
      end
  end.

(** [p.exists()] *)
Definition exists_ (root : node) (p : path) : bool :=
  match lookup root p with
  | Some _ => true
  | None => false
  end.

(** [p.is_dir()] *)
Definition is_dir (root : node) (p : path) : bool :=
  match lookup root p with
  | Some (Dir _) => true
  | _ => false
  end.

(** The names [os.listdir(p)] gives, or [None] where it raises. *)
Definition listdir (root : node) (p : path) : option (list string) :=
  match lookup root p with
  | Some (Dir entries) => Some (map fst entries)
  | _ => None
  end.

(** [p.iterdir()]: a generator that lists the directory at its first
    step. *)
Definition iterdir (root : node) (p : path) : generated path :=
  match listdir root p with
  | Some names => Generated (map (λ name, p ++ [name]) names) None
  | None => Generated [] (Some OSError)
  end.

(** [p.name] *)
Definition name (p : path) : string := default "" (last p).

End Fs.

(** [itertools.chain(g1, g2)] *)
Definition chain {A} (g1 g2 : generated A) : generated A :=
  match raised g1 with
  | Some e => Generated (yielded g1) (Some e)
  | None => Generated (yielded g1 ++ yielded g2) (raised g2)
  end.

(** The body of the [for fpath in candidate_iter] loop of
    [find_storage_directories], over the candidates the iterator yields. *)
Fixpoint scan_candidates (fs : Fs.node) (candidates : list Fs.path)
  : list (string * Fs.path) :=
  match candidates with
  | [] => []
  | fpath :: rest =>
      if negb (Fs.is_dir fs fpath) then scan_candidates fs rest
      else
        match PROFILE_PAT_match (Fs.name fpath) with
        | Some (_, group2) =>
            let storage_path := fpath ++ ["zotero"; "storage"] in
            if Fs.exists_ fs storage_path
            then (group2, storage_path) :: scan_candidates fs rest
            else scan_candidates fs rest
        | None => scan_candidates fs rest
        end
  end.

Definition find_storage_directories (environ : gmap string Fs.path) (fs : Fs.node)
  : generated (string * Fs.path) :=
  match environ !! "HOME" with
  | None => Generated [] (Some (KeyError "HOME"))
  | Some home_dir =>
      let firefox_dir := home_dir ++ [".mozilla"; "firefox"] in
      let zotero_dir := home_dir ++ [".zotero"] in
      let candidate_iter := chain (Fs.iterdir fs firefox_dir) (Fs.iterdir fs zotero_dir) in
      Generated (scan_candidates fs (yielded candidate_iter)) (raised candidate_iter)
  end.

(** The candidate rule in the words of the specification: the name is a
    profile id with a suffix and the directory has a [storage]
    subdirectory. *)
Definition spec_is_candidate (fs : Fs.node) (dir : Fs.path) : bool :=
  match PROFILE_PAT_match (Fs.name dir) with
  | Some _ => Fs.is_dir fs (dir ++ ["storage"])
  | None => false
  end.

(** ** The records the backend hands out

    [zotero_cli.backend] is imported, not defined, by [cli.py]; of its
    values the command layer reads the fields below.  [cli.py] styles
    [title] without a test and tests [creator] and [date] before use, so
    the latter two may be [None]. *)

Record Item := {
  key : string;
  citekey : option string;
  title : string;
  creator : option string;
  date : option string
}.

(** A note: [note_text n] is [n['data']['note']['text']]. *)
Record Note := {
  note_key : string;
  note_text : string
}.

(** The methods of [ZoteroBackend] that item resolution and note editing
    call.  The argument of [notes] is whatever [pick_item] returned, which
    may be [None]. *)
Record Backend := {
  search : string → list Item;
  notes : option string → list Note;
  note_format : string
}.

(** Truth value of an optional string: [None] and [''] are false. *)
Definition truthy (o : option string) : bool :=
  match o with
  | Some s => negb (String.eqb s "")
  | None => false
  end.

(** ** Commands as state transformers

    A command runs against the answers [click.prompt] will return, in
    order, and leaves a log of what it printed, asked and called. *)

Inductive event :=
| Echo (text : string)
| EchoErr (text : string)
| Prompted (text : string) (default : Z) (answer : Z)
| Searched (query : string)
| NotesRead (item_id : option string)
| Edited (text extension : string) (result : option string)
| NoteSaved (note : Note).

Record world := World {
  answers : list Z;
  log : list event
}.

Inductive outcome (A : Type) :=
| Ret (a : A)
| Raise (e : exn).
Arguments Ret {A} _.
Arguments Raise {A} _.

Definition M (A : Type) : Type := world → outcome A * world.

#[global] Instance M_ret : MRet M := λ A a w, (Ret a, w).

#[global] Instance M_bind : MBind M :=
  λ A B k m w, match m w with
               | (Ret a, w') => k a w'
               | (Raise e, w') => (Raise e, w')
               end.

Definition raise {A} (e : exn) : M A := λ w, (Raise e, w).

Definition emit (e : event) : M unit :=
  λ w, (Ret tt, World (answers w) (log w ++ [e])).

(** [click.echo(text)] and [click.echo(text, err=True)] *)
Definition echo (text : string) : M unit := emit (Echo text).
Definition echo_err (text : string) : M unit := emit (EchoErr text).

(** [try: m except ValueError as e: handler(e.args[0])] *)
Definition except_ValueError {A} (m : M A) (handler : string → M A) : M A :=
  λ w, match m w with
       | (Raise (ValueError msg), w') => handler msg w'
       | r => r
       end.

(** [ctx.fail(msg)] *)
Definition ctx_fail {A} (msg : string) : M A := raise (UsageError msg).

(** [for idx, x in enumerate(l): body(idx, x)], counting from [idx]. *)
Fixpoint for_enumerate {A} (body : nat → A → M unit) (idx : nat) (l : list A) : M unit :=
  match l with
  | [] => mret tt
  | x :: rest => (body idx x ;; for_enumerate body (S idx) rest)
  end.

(** What [cli.py] uses of the terminal library: [click.style(text, fg=...)]
    and the result of [click.edit(text, extension=...)]. *)
Class Terminal := {
  style : string → string → string;
  edit : string → string → option string
}.

Definition ESC : string := String "027" EmptyString.

Section Commands.

Context `{Terminal}.

Definition menu_line (idx : nat) (choice_label : string) : string :=
  let choice_label :=
    if negb (PyStr.contains ESC choice_label)
    then style choice_label "blue" else choice_label in
  style ("[" +:+ PyStr.of_int (Z.of_nat idx) +:+ "]") "green" +:+ " " +:+ choice_label.

Definition range_message (cutoff last_idx : Z) : string :=
  "Value must be between " +:+ PyStr.of_int cutoff +:+ " and "
    +:+ PyStr.of_int last_idx +:+ "!".

Definition cutoff_of (required : bool) : Z := if negb required then -1 else 0.

(** The [while True] loop of [select], one turn per pending answer;
    [click.prompt] aborts when the input is at its end. *)
Fixpoint select_loop {A} (choices : list (A * string)) (prompt : string)
    (default : Z) (required : bool) (pending : list Z) (log0 : list event)
  : outcome (option A) * world :=
  match pending with
  | [] => (Raise Abort, World [] log0)
  | choice_idx :: rest =>
      let log1 := log0 ++ [Prompted prompt default choice_idx] in
      let cutoff := cutoff_of required in
      if (choice_idx <? cutoff) || (choice_idx >=? Z.of_nat (length choices)) then
        select_loop choices prompt default required rest
          (log1 ++ [EchoErr (range_message cutoff (Z.of_nat (length choices) - 1))])
      else if choice_idx =? -1 then (Ret None, World rest log1)
      else
        match py_index choices choice_idx with
        | Some choice => (Ret (Some (fst choice)), World rest log1)
        | None => (Raise IndexError, World rest log1)
        end
  end.

Definition select {A} (choices : list (A * string)) (prompt : string)
    (default : Z) (required : bool) : M (option A) :=
  (for_enumerate (λ idx choice, echo (menu_line idx (snd choice))) 0%nat choices ;;
   (λ w, select_loop choices prompt default required (answers w) (log w)) : M (option A)).

(** The lines [select] prints for its choices, numbered from [idx]. *)
Definition menu {A} (idx : nat) (choices : list (A * string)) : list event :=
  imap (λ k choice, Echo (menu_line (idx + k) (snd choice))) choices.

(** What one rejected answer leaves in the log. *)
Definition rejection {A} (choices : list (A * string)) (prompt : string)
    (default : Z) (required : bool) (answer : Z) : list event :=
  [Prompted prompt default answer;
   EchoErr (range_message (cutoff_of required) (Z.of_nat (length choices) - 1))].

Definition out_of_range {A} (choices : list (A * string)) (required : bool) (z : Z) : Prop :=
  z < cutoff_of required ∨ Z.of_nat (length choices) ≤ z.

Definition describe (it : Item) : string :=
  let desc := style (title it) "blue" in
  let desc :=
    if truthy (creator it)
    then style (default "" (creator it) +:+ ": ") "cyan" +:+ desc else desc in
  if truthy (date it)
  then desc +:+ style (" (" +:+ default "" (date it) +:+ ")") "yellow" else desc.

(** [zot.search(item_id)], made a tuple. *)
Definition run_search (zot : Backend) (query : string) : M (list Item) :=
  (emit (Searched query) ;; mret (search zot query)).

(** [pick_item]: the result [None] is Python's [None], which a function
    returns when its body ends without a [return]. *)
Definition pick_item (zot : Backend) (item_id : string) : M (option string) :=
  if negb (ID_PAT_match item_id) then
    (items ← run_search zot item_id ;
     if (1 <? length items)%nat then
       echo "Multiple matches available." ;;
       let item_descriptions := map describe items in
       chosen ← select (zip items item_descriptions) "Please choose one" 0 true ;
       match chosen with
       | Some it => mret (Some (key it))
       | None => raise AttributeError
       end
     else
       match items with
       | it :: _ => mret (Some (key it))
       | [] => raise (ValueError "Could not find any items for the query.")
       end)
  else mret None.

(** The label of a note in the menu of [edit_note]: the first line of
    its text, every character outside [\w] replaced by a space. *)
Definition note_label (n : Note) : string :=
  PyStr.map_chars (λ c, if PyStr.is_word c then c else " "%char)
    (PyStr.first_line (note_text n)).

Definition run_notes (zot : Backend) (item_id : option string) : M (list Note) :=
  (emit (NotesRead item_id) ;; mret (notes zot item_id)).

Definition run_edit (text extension : string) : M (option string) :=
  let result := edit text extension in
  (emit (Edited text extension result) ;; mret result).

(** [edit_note(ctx, item_id, note_num)] with [ctx.obj = zot]. *)
Definition edit_note (zot : Backend) (item_id : string) (note_num : option Z) : M unit :=
  (item_id ← except_ValueError (pick_item zot item_id) ctx_fail ;
   notes ← run_notes zot item_id ;
   (if bool_decide (notes = []) then ctx_fail "The item does not have any notes."
    else mret tt) ;;
   note ← match note_num with
          | None =>
              if (1 <? length notes)%nat then
                picked ← select (map (λ n, (n, note_label n)) notes)
                           "Please choose one" 0 true ;
                match picked with
                | Some n => mret n
                | None => raise TypeError
                end
              else
                match notes with
                | n :: _ => mret n
                | [] => raise IndexError
                end
          | Some note_num =>
              match py_index notes note_num with
              | Some n => mret n
              | None => raise IndexError
              end
          end ;
   updated_text ← run_edit (note_text note) (get_extension (note_format zot)) ;
   if truthy updated_text
   then emit (NoteSaved {| note_key := note_key note;
                           note_text := default "" updated_text |})
   else mret tt).

End Commands.

(** The escape sequences [click.style] wraps a text in, for running the
    commands; the editor leaves every text unchanged. *)
Definition ansi_code (fg : string) : string :=
  if String.eqb fg "green" then "32"
  else if String.eqb fg "yellow" then "33"
  else if String.eqb fg "blue" then "34"
  else if String.eqb fg "cyan" then "36"
  else "39".

Definition ansi_terminal : Terminal := {|
  style text fg := ESC +:+ "[" +:+ ansi_code fg +:+ "m" +:+ text +:+ ESC +:+ "[0m";
  edit _ _ := None
|}.

(** ** The sync engine

    [ZoteroBackend.synchronize] lives in [zotero_cli/backend.py], which
    [cli.py] imports and calls ([sync], [configure]) but which is not part
    of the sources at hand. *)

Module SyncEngine.

Inductive sync_error := RemoteUnavailable | AuthError | StoreWriteError.

(** An Item, Note or Attachment record as the store keeps it. *)
Record record := {
  rec_key : string;
  rec_version : Z;
  rec_body : string
}.

Record SyncState := {
  library_id : string;
  last_synced_version : option Z
}.

(** The Local Store: the committed records and the one SyncState. *)
Record LocalStore := {
  records : gmap string record;
  sync_state : SyncState
}.

(** One page of a pull: records to upsert and tombstones. *)
Record page := {
  upserts : list record;
  tombstones : list string
}.

(** What fetching and applying one page comes to: it succeeds, or it
    fails after the part [applied] of it was written to the open batch. *)
Inductive page_result :=
| PageOk (p : page)
| PageFailed (applied : page) (e : sync_error).

(** The remote as the engine sees it: the pages of the changes after a
    cursor (all records when there is none), up to the page after which
    the remote reports no more. *)
Definition remote := option Z → list page_result.

(** The open batch of one pull. *)
Record batch := {
  staged : gmap string record;
  changed : nat;
  max_seen : option Z
}.

Definition upsert (rs : list record) (m : gmap string record) : gmap string record :=
  foldl (λ m r, <[rec_key r := r]> m) m rs.

Definition delete_keys (ks : list string) (m : gmap string record) : gmap string record :=
  foldl (λ m k, delete k m) m ks.

Definition observe (seen : option Z) (r : record) : option Z :=
  match seen with
  | Some v => Some (Z.max v (rec_version r))
  | None => Some (rec_version r)
  end.

Definition apply_page (p : page) (b : batch) : batch := {|
  staged := delete_keys (tombstones p) (upsert (upserts p) (staged b));
  changed := (changed b + length (upserts p) + length (tombstones p))%nat;
  max_seen := foldl observe (max_seen b) (upserts p)
|}.

Definition begin (s : LocalStore) : batch := {|
  staged := records s;
  changed := 0%nat;
  max_seen := last_synced_version (sync_state s)
|}.

(** Page after page into the batch; the first failure ends the pull and
    leaves the batch as it was at that moment. *)
Fixpoint pull (pages : list page_result) (b : batch) : sync_error * batch + batch :=
  match pages with
  | [] => inr b
  | PageOk p :: rest => pull rest (apply_page p b)
  | PageFailed applied e :: _ => inl (e, apply_page applied b)
  end.

Definition commit (s : LocalStore) (b : batch) : LocalStore := {|
  records := staged b;
  sync_state := {| library_id := library_id (sync_state s);
                   last_synced_version := max_seen b |}
|}.

(** Modelled from the spec: [synchronize] of the absent
    [zotero_cli/backend.py], after sections 4.1 and 4.2: read the cursor,
    request the changes after it, apply every page to one atomic batch,
    and only after all pages succeeded commit the batch and set the
    cursor to the maximum version observed; a failing page aborts the
    whole sync and the batch is dropped.  The result is the count of
    changed records or the error. *)
Definition synchronize (r : remote) (s : LocalStore) : (sync_error + nat) * LocalStore :=
  let cursor := last_synced_version (sync_state s) in
  match pull (r cursor) (begin s) with
  | inl (e, _) => (inl e, s)
  | inr b => (inr (changed b), commit s b)
  end.

Definition failed (pr : page_result) : Prop :=
  match pr with
  | PageFailed _ _ => True
  | PageOk _ => False
  end.

End SyncEngine.

(** ** Sample inputs *)

Module Sample.

Definition it1 : Item := {|
  key := "AAAA1111"; citekey := None; title := "Neural Networks";
  creator := Some "Smith"; date := Some "2001"
|}.

Definition it2 : Item := {|
  key := "BBBB2222"; citekey := None; title := "Neural Networks";
  creator := None; date := Some ""
|}.

(** A library in which "Neural Networks" finds two Items and "one" finds
    one; every item has the single note [hi]. *)
Definition zot : Backend := {|
  search q :=
    if String.eqb q "Neural Networks" then [it1; it2]
    else if String.eqb q "one" then [it2] else [];
  notes _ := [ {| note_key := "NNNN0001"; note_text := "hi" |} ];
  note_format := "markdown"
|}.

(** The same library without notes. *)
Definition zot_without_notes : Backend := {|
  search := search zot;
  notes _ := [];
  note_format := "markdown"
|}.

Definition quiet : world := World [] [].

Definition three_answers : world := World [5; 1; 7] [].

Definition environ : gmap string Fs.path := <["HOME" := ["home"; "u"]]> ∅.

Definition firefox_dir : Fs.path := ["home"; "u"; ".mozilla"; "firefox"].

(** A home directory with two Firefox profiles: [abcd1234.default] keeps
    its library under [zotero/storage], [wxyz5678.old] has a [storage]
    directory of its own and no [zotero] directory. *)
Definition fs : Fs.node :=
  Fs.Dir [("home", Fs.Dir [("u", Fs.Dir [
    (".mozilla", Fs.Dir [("firefox", Fs.Dir [
       ("abcd1234.default", Fs.Dir [("zotero", Fs.Dir [("storage", Fs.Dir [])])]);
       ("wxyz5678.old", Fs.Dir [("storage", Fs.Dir [])]);
       ("profiles.ini", Fs.File)])]);
    (".zotero", Fs.Dir [])])])].

Definition page1 : SyncEngine.page := {|
  SyncEngine.upserts := [ {| SyncEngine.rec_key := "AAAA1111";
                             SyncEngine.rec_version := 7;
                             SyncEngine.rec_body := "first" |} ];
  SyncEngine.tombstones := []
|}.

(** A remote whose second page always fails half way. *)
Definition flaky_remote : SyncEngine.remote :=
  λ _, [SyncEngine.PageOk page1;
        SyncEngine.PageFailed page1 SyncEngine.RemoteUnavailable].

Definition store : SyncEngine.LocalStore := {|
  SyncEngine.records := ∅;
  SyncEngine.sync_state := {| SyncEngine.library_id := "42";
                              SyncEngine.last_synced_version := Some 3 |}
|}.

End Sample.

(** ** The commands around the helpers

    The commands [query], [read], [add_note] and [configure] ask more of
    the user than a number, call more of the backend and touch the
    machine; their runs are traced in a session that embeds the log of the
    menu layer. *)

(** An attachment: [att_title a] is [a['data']['title']], [att_filename a]
    is [a['data']['filename']], and [att_path a] is [a['data']['path']]
    when the key [path] is present. *)
Record Attachment := {
  att_title : string;
  att_filename : string;
  att_path : option string
}.

(** The dictionary [configure] hands to [save_config]. *)
Record Config := {
  cfg_api_key : string;
  cfg_library_id : string;
  cfg_storage_directory : string;
  cfg_note_format : option string;
  cfg_sync_interval : Z
}.

Inductive io_event :=
| Shown (e : event)
| Confirmed (text : string) (default answer : bool)
| Asked (text answer : string)
| AttachmentsRead (item_id : option string)
| Downloaded (att : Attachment) (dest_dir : option string)
| Launched (path : string)
| NoteCreated (item_id : option string) (body : string)
| ConfigSaved (cfg : Config)
| BackendOpened (api_key library_id : string)
| Synchronized (count : Z).

(** The answers still to come, by kind of question ([click.prompt] with
    [type=int], [click.confirm], [click.prompt] for a text), and the trace
    so far. *)
Record session := Session {
  ints : list Z;
  bools : list bool;
  texts : list string;
  trace : list io_event
}.

Definition Cmd (A : Type) : Type := session → outcome A * session.

#[global] Instance Cmd_ret : MRet Cmd := λ A a s, (Ret a, s).

#[global] Instance Cmd_bind : MBind Cmd :=
  λ A B k m s, match m s with
               | (Ret a, s') => k a s'
               | (Raise e, s') => (Raise e, s')
               end.

Definition throw {A} (e : exn) : Cmd A := λ s, (Raise e, s).

(** A command of the menu layer inside a session: it reads the pending
    numbers and its log goes to the end of the trace. *)
Definition lift {A} (m : M A) : Cmd A :=
  λ s, let '(r, w) := m (World (ints s) []) in
       (r, Session (answers w) (bools s) (texts s) (trace s ++ map Shown (log w))).

Definition record_io (e : io_event) : Cmd unit :=
  λ s, (Ret tt, Session (ints s) (bools s) (texts s) (trace s ++ [e])).

(** [click.confirm(text, default=default)] *)
Definition confirm (text : string) (default : bool) : Cmd bool :=
  λ s, match bools s with
       | [] => (Raise Abort, s)
       | answer :: rest =>
           (Ret answer,
            Session (ints s) rest (texts s) (trace s ++ [Confirmed text default answer]))
       end.

(** [click.prompt(text)] *)
Definition ask (text : string) : Cmd string :=
  λ s, match texts s with
       | [] => (Raise Abort, s)
       | answer :: rest =>
           (Ret answer, Session (ints s) (bools s) rest (trace s ++ [Asked text answer]))
       end.

(** [for x in l: body(x)] *)
Fixpoint for_each {A} (body : A → M unit) (l : list A) : M unit :=
  match l with
  | [] => mret tt
  | x :: rest => body x ;; for_each body rest
  end.

(** [l.index(x)] on a list of strings; [None] stands for [ValueError]. *)
Fixpoint list_index (x : string) (l : list string) : option nat :=
  match l with
  | [] => None
  | y :: rest => if String.eqb y x then Some 0%nat else S <$> list_index x rest
  end.

(** [str(p)] for an absolute path. *)
Fixpoint path_string (p : list string) : string :=
  match p with
  | [] => ""
  | name :: rest => "/" +:+ name +:+ path_string rest
  end.

(** [s.endswith(a)] for a single character. *)
Fixpoint ends_with (a : ascii) (s : string) : bool :=
  match s with
  | EmptyString => false
  | String c EmptyString => Ascii.eqb c a
  | String _ rest => ends_with a rest
  end.

(** [os.path.join(a, b)] of [posixpath], where [a] may be [None]. *)
Definition os_path_join (a : option string) (b : string) : outcome string :=
  if String.prefix "/" b then Ret b
  else match a with
       | None => Raise AttributeError
       | Some path =>
           if String.eqb path "" || ends_with "/" path
           then Ret (path +:+ b)
           else Ret (path +:+ "/" +:+ b)
       end.

(** The pattern of [configure] for a storage path, through [re.match]:
    any run without a line feed, then the word [storage], then an optional
    slash.  The run backtracks from the longest. *)
Module StoragePat.

(** The run and then the rest of the pattern [k]; the unread text of the
    first match. *)
Fixpoint dot_star_then (k : string → option string) (s : string) : option string :=
  match s with
  | EmptyString => k EmptyString
  | String c rest =>
      match (if Ascii.eqb c "010" then None else dot_star_then k rest) with
      | Some unread => Some unread
      | None => k s
      end
  end.

Fixpoint literal (word : string) (s : string) : option string :=
  match word with
  | EmptyString => Some s
  | String a word' =>
      match s with
      | String c rest => if Ascii.eqb c a then literal word' rest else None
      | EmptyString => None
      end
  end.

Definition optional (a : ascii) (s : string) : string :=
  match s with
  | String c rest => if Ascii.eqb c a then rest else s
  | EmptyString => s
  end.

Definition matches (s : string) : bool :=
  match dot_star_then (λ r, optional "/" <$> literal "storage" r) s with
  | Some _ => true
  | None => false
  end.

End StoragePat.

(** The rest of [ZoteroBackend] and of the machine, as the commands see
    them: [search] with a limit and an optional query, [attachments],
    [tempfile.tempdir] and [os.path.exists]. *)
Record Host := {
  search_limit : option string → Z → list Item;
  attachments : option string → list Attachment;
  tempdir : option string;
  path_exists : string → bool
}.

(** What [configure] needs beyond the host: [get_api_key], whose exchange
    with the service is not modelled, the environment and the directories
    for the discovery, the markup formats [pypandoc] reports, the
    exception of the [ZoteroBackend] constructor if it raises, and the
    result of [synchronize]. *)
Record Setup := {
  get_api_key : Cmd (string * string);
  setup_environ : gmap string Fs.path;
  setup_fs : Fs.node;
  pandoc_formats : list string;
  backend_error : string → string → option exn;
  synchronize_result : string → string → outcome Z
}.

Section Cli.

Context `{Terminal}.

(** [item.citekey or item.key] *)
Definition citekey_or_key (item : Item) : string :=
  if truthy (citekey item) then default "" (citekey item) else key item.

(** The line [query] prints for one item. *)
Definition query_line (item : Item) : string :=
  let out := style ("[" +:+ citekey_or_key item +:+ "] ") "green" in
  let out :=
    if truthy (creator item)
    then out +:+ style (default "" (creator item) +:+ ": ") "cyan" else out in
  let out := out +:+ style (title item) "blue" in
  if truthy (date item)
  then out +:+ style (" (" +:+ default "" (date item) +:+ ")") "yellow" else out.

(** [query(ctx, query, limit)] *)
Definition query (host : Host) (query : option string) (limit : Z) : M unit :=
  for_each (λ item, echo (query_line item)) (search_limit host query limit).

Definition run_attachments (host : Host) (item_id : option string) : Cmd (list Attachment) :=
  record_io (AttachmentsRead item_id) ;; mret (attachments host item_id).

(** [read(ctx, item_id)] with [ctx.obj] made of [zot] and [host]. *)
Definition read (zot : Backend) (host : Host) (item_id : string) : Cmd unit :=
  item_id ← lift (except_ValueError (pick_item zot item_id) ctx_fail) ;
  attachments ← run_attachments host item_id ;
  read_att ←
    (if bool_decide (attachments = []) then
       lift (ctx_fail "Could not find an attachment for reading.")
     else if (1 <? length attachments)%nat then
       lift (echo "Multiple attachments available.") ;;
       picked ← lift (select (map (λ att, (att, att_title att)) attachments)
                        "Please choose one" 0 true) ;
       match picked with
       | Some att => mret att
       | None => throw TypeError
       end
     else
       match attachments with
       | att :: _ => mret att
       | [] => throw IndexError
       end) ;
  located ←
    match att_path read_att with
    | None =>
        do_download ← confirm "Could not find file locally, do you want to download it?" true ;
        if do_download : bool then
          record_io (Downloaded read_att (tempdir host)) ;;
          match os_path_join (tempdir host) (att_filename read_att) with
          | Ret path => mret (Some path)
          | Raise e => throw e
          end
        else mret None
    | Some path => mret (Some path)
    end ;
  match located with
  | None => mret tt
  | Some path =>
      if path_exists host path then
        lift (echo ("Opening '" +:+ path +:+ "'.")) ;;
        record_io (Launched path)
      else lift (ctx_fail ("Could not find file '" +:+ path +:+ "'"))
  end.

(** [add_note(ctx, item_id, note_format)] with [ctx.obj = zot]; the option
    replaces the format of the backend when it is given.  [click.edit]
    without a text starts from the empty text. *)
Definition add_note (zot : Backend) (item_id : string) (format_option : option string)
  : Cmd unit :=
  let zot :=
    if truthy format_option
    then {| search := search zot; notes := notes zot;
            note_format := default "" format_option |}
    else zot in
  item_id ← lift (except_ValueError (pick_item zot item_id) ctx_fail) ;
  note_body ← lift (run_edit "" (get_extension (note_format zot))) ;
  if truthy note_body
  then record_io (NoteCreated item_id (default "" note_body))
  else mret tt.

(** The [while True] loop of [configure] that asks for the storage
    directory, one turn per pending text. *)
Fixpoint ask_storage_directory (host : Host) (pending : list string)
    (ints0 : list Z) (bools0 : list bool) (trace0 : list io_event)
  : outcome string * session :=
  match pending with
  | [] => (Raise Abort, Session ints0 bools0 [] trace0)
  | storage_dir :: rest =>
      let trace1 :=
        trace0 ++ [Asked "Please enter the path to your Zotero storage directory" storage_dir] in
      if negb (path_exists host storage_dir) then
        ask_storage_directory host rest ints0 bools0
          (trace1 ++ [Shown (Echo "Directory does not exist!")])
      else if negb (StoragePat.matches storage_dir) then
        ask_storage_directory host rest ints0 bools0
          (trace1 ++ [Shown (Echo "Path must point to a `storage` directory!")])
      else (Ret storage_dir, Session ints0 bools0 rest trace1)
  end.

(** [tuple(g)] for a generator. *)
Definition tuple_of {A} (g : generated A) : Cmd (list A) :=
  match raised g with
  | Some e => throw e
  | None => mret (yielded g)
  end.

Definition storage_option (entry : string * Fs.path) : string * string :=
  (fst entry, style (fst entry) "cyan" +:+ " (" +:+ path_string (snd entry) +:+ ")").

(** [configure()] *)
Definition configure (host : Host) (setup : Setup) : Cmd unit :=
  have_key ← confirm "Do you already have an API key for zotero-cli?" false ;
  let generate_key := negb have_key in
  '(api_key, library_id) ←
    (if generate_key then get_api_key setup
     else
       api_key ← ask "Please enter the API key for zotero-cli" ;
       library_id ← ask "Please enter your library ID" ;
       mret (api_key, library_id)) ;
  storage_dirs ← tuple_of (find_storage_directories (setup_environ setup) (setup_fs setup)) ;
  storage_dir ←
    (if bool_decide (storage_dirs = []) then mret None
     else lift (select (map storage_option storage_dirs)
                  "Please select a storage directory (-1 to enter manually)" 0 false)) ;
  storage_dir ←
    match storage_dir with
    | None => λ s, ask_storage_directory host (texts s) (ints s) (bools s) (trace s)
    | Some storage_dir => mret storage_dir
    end ;
  let markup_formats := pandoc_formats setup in
  default_idx ←
    match list_index "markdown" markup_formats with
    | Some idx => mret (Z.of_nat idx)
    | None => throw (ValueError "'markdown' is not in list")
    end ;
  note_format ← lift (select (zip markup_formats markup_formats)
                        "Select markup format for notes" default_idx true) ;
  record_io (ConfigSaved {| cfg_api_key := api_key;
                            cfg_library_id := library_id;
                            cfg_storage_directory := storage_dir;
                            cfg_note_format := note_format;
                            cfg_sync_interval := 300 |}) ;;
  match backend_error setup api_key library_id with
  | Some e => throw e
  | None =>
      record_io (BackendOpened api_key library_id) ;;
      lift (echo "Initializing local index...") ;;
      match synchronize_result setup api_key library_id with
      | Raise e => throw e
      | Ret num_synced =>
          record_io (Synchronized num_synced) ;;
          lift (echo ("Synchronized " +:+ PyStr.of_int num_synced +:+ " items."))
      end
  end.

End Cli.

(** Events that are a call of [search]. *)
Definition is_search (e : event) : bool :=
  match e with
  | Searched _ => true
  | _ => false
  end.

(** Session events that start a program or write the configuration. *)
Definition is_launch (e : io_event) : option string :=
  match e with
  | Launched path => Some path
  | _ => None
  end.


(** ** Sample inputs for the commands *)

Module Demo.

Definition paper : Attachment := {|
  att_title := "Paper"; att_filename := "p.pdf"; att_path := None
|}.

(** A machine whose temporary directory is [/tmp] and on which two paths
    exist; every item has the one attachment [paper]. *)
Definition host : Host := {|
  search_limit _ _ := [Sample.it1; Sample.it2];
  attachments _ := [paper];
  tempdir := Some "/tmp";
  path_exists p := String.eqb p "/tmp/p.pdf" || String.eqb p "/data/storage"
|}.

Definition host_without_attachments : Host := {|
  search_limit := search_limit host;
  attachments _ := [];
  tempdir := tempdir host;
  path_exists := path_exists host
|}.

(** The sample library with two notes per item. *)
Definition zot_two_notes : Backend := {|
  search := search Sample.zot;
  notes _ := [ {| note_key := "NNNN0001"; note_text := "first" |};
               {| note_key := "NNNN0002"; note_text := "second" |} ];
  note_format := "markdown"
|}.

(** A terminal whose editor appends an exclamation mark. *)
Definition busy_terminal : Terminal := {|
  style := @style ansi_terminal;
  edit text _ := Some (text +:+ "!")
|}.

Definition setup : Setup := {|
  get_api_key s := (Ret ("K", "L"), s);
  setup_environ := Sample.environ;
  setup_fs := Sample.fs;
  pandoc_formats := ["html"; "markdown"; "latex"];
  backend_error _ _ := None;
  synchronize_result _ _ := Ret 12
|}.

Definition setup_without_home : Setup := {|
  get_api_key := get_api_key setup;
  setup_environ := ∅;
  setup_fs := Sample.fs;
  pandoc_formats := pandoc_formats setup;
  backend_error := backend_error setup;
  synchronize_result := synchronize_result setup
|}.


Definition idle : session := Session [] [] [] [].

End Demo.

(** * Properties *)

(** ** Strings and patterns *)

Lemma class_rep_sound cls n s m r :
  Re.class_rep cls n s = Some (m, r) →
  s = m +:+ r ∧ String.length m = n ∧ PyStr.all_chars cls m = true.
Proof.
  revert s m r. induction n as [|n IH]; intros s m r; simpl.
  - intros [= <- <-]. done.
  - destruct s as [|c rest]; [done|].
    destruct (cls c) eqn:Hc; [|done].
    destruct (Re.class_rep cls n rest) as [[m' r']|] eqn:Hrec; [|done].
    intros [= <- <-]. destruct (IH _ _ _ Hrec) as (-> & <- & Hall).
    simpl. by rewrite Hc, Hall.
Qed.

Lemma class_rep_complete cls m r :
  PyStr.all_chars cls m = true →
  Re.class_rep cls (String.length m) (m +:+ r) = Some (m, r).
Proof.
  induction m as [|c m IH]; simpl; [done|].
  intros [Hc Hall]%andb_true_iff. by rewrite Hc, IH.
Qed.

Lemma ID_PAT_match_iff (s : string) :
  ID_PAT_match s = true ↔
  ∃ k rest, s = k +:+ rest ∧ String.length k = 8%nat ∧ PyStr.all_chars id_char k = true.
Proof.
  unfold ID_PAT_match. split.
  - destruct (Re.class_rep id_char 8 s) as [[m r]|] eqn:Hm; [|done].
    intros _. exists m, r. by apply class_rep_sound.
  - intros (k & rest & -> & Hlen & Hall).
    rewrite <- Hlen. by rewrite class_rep_complete.
Qed.

(** ** File extensions *)

Lemma EXTENSION_MAP_lookup (fmt : string) :
  EXTENSION_MAP !! fmt =
    if decide (fmt = "docbook") then Some "dbk"
    else if decide (fmt = "latex") then Some "tex" else None.
Proof.
  unfold EXTENSION_MAP.
  rewrite !lookup_insert, lookup_empty.
  repeat case_decide; congruence.
Qed.

(** C8: [get_extension] gives [.md] for every format whose name contains
    [mark], whatever the extension table holds; it gives [dbk] for
    [docbook] and [tex] for [latex], without a leading dot; for every
    other format it gives a dot followed by the format name; so the result
    lacks the leading dot for exactly the two formats of the table. *)
Theorem get_extension_cases (fmt : string) :
  (PyStr.contains "mark" fmt = true →
     get_extension fmt = ".md" ∧ ∀ ext_map, get_extension_with ext_map fmt = ".md") ∧
  get_extension "docbook" = "dbk" ∧
  get_extension "latex" = "tex" ∧
  (PyStr.contains "mark" fmt = false → fmt ≠ "docbook" → fmt ≠ "latex" →
     get_extension fmt = "." +:+ fmt) ∧
  (PyStr.starts_with_dot (get_extension fmt) = false ↔ fmt = "docbook" ∨ fmt = "latex").
Proof.
  unfold get_extension, get_extension_with.
  split; [|split; [|split; [|split]]].
  - intros ->. done.
  - by vm_compute.
  - by vm_compute.
  - intros -> Hd Hl. rewrite EXTENSION_MAP_lookup.
    by repeat case_decide.
  - rewrite EXTENSION_MAP_lookup.
    destruct (PyStr.contains "mark" fmt) eqn:Hmark.
    + split; [done|]. intros [-> | ->]; by vm_compute in Hmark.
    + repeat case_decide; subst; simpl; split; try done; auto.
      intros [?|?]; done.
Qed.

Lemma get_extension_cases_witness :
  get_extension "markdown_github" = ".md"
  ∧ get_extension "html" = "." +:+ "html"
  ∧ PyStr.starts_with_dot (get_extension "latex") = false.
Proof.
  split; [|split].
  - apply (proj1 (get_extension_cases "markdown_github")). vm_compute. reflexivity.
  - apply (proj1 (proj2 (proj2 (proj2 (get_extension_cases "html"))))).
    + vm_compute. reflexivity.
    + discriminate.
    + discriminate.
  - apply (proj2 (proj2 (proj2 (proj2 (get_extension_cases "latex"))))). right. reflexivity.
Defined.

(** ** The menu *)

Section CommandFacts.

Context `{Terminal}.

Lemma for_enumerate_menu {A} (choices : list (A * string)) (idx : nat) (w : world) :
  for_enumerate (λ i choice, echo (menu_line i (snd choice))) idx choices w
  = (Ret tt, World (answers w) (log w ++ menu idx choices)).
Proof.
  revert idx w. induction choices as [|c choices IH]; intros idx w.
  - simpl. unfold menu. simpl. rewrite app_nil_r. by destruct w.
  - cbn [for_enumerate]. unfold mbind, M_bind, echo, emit.
    rewrite IH. cbn [answers log]. f_equal. f_equal.
    rewrite <- app_assoc. f_equal. unfold menu. cbn [imap app].
    rewrite Nat.add_0_r. f_equal.
    apply imap_ext. intros k x _. cbn. by rewrite Nat.add_succ_r.
Qed.

Lemma select_unfold {A} (choices : list (A * string)) prompt default required w :
  select choices prompt default required w
  = select_loop choices prompt default required (answers w) (log w ++ menu 0 choices).
Proof.
  unfold select, mbind, M_bind. by rewrite for_enumerate_menu.
Qed.

Lemma py_index_in_range {A} (l : list A) (i : Z) :
  0 ≤ i < Z.of_nat (length l) → py_index l i = l !! Z.to_nat i ∧ is_Some (l !! Z.to_nat i).
Proof.
  intros Hi. unfold py_index.
  destruct (Z.leb_spec 0 i); [|lia]. destruct (Z.ltb_spec i (Z.of_nat (length l))); [|lia].
  split; [done|]. apply lookup_lt_is_Some. lia.
Qed.

Lemma py_index_out_of_range {A} (l : list A) (i : Z) :
  Z.of_nat (length l) ≤ i ∨ i < - Z.of_nat (length l) → py_index l i = None.
Proof.
  intros Hi. unfold py_index.
  destruct (Z.leb_spec 0 i), (Z.ltb_spec i (Z.of_nat (length l))),
    (Z.leb_spec (- Z.of_nat (length l)) i), (Z.ltb_spec i 0); simpl; try done; lia.
Qed.

(** A returning loop consumed a run of rejected answers and then one
    accepted answer, which decides the result. *)
Lemma select_loop_returns {A} (choices : list (A * string)) prompt default required
    pending log0 r w' :
  select_loop choices prompt default required pending log0 = (Ret r, w') →
  ∃ rejected idx,
    pending = rejected ++ idx :: answers w'
    ∧ Forall (out_of_range choices required) rejected
    ∧ cutoff_of required ≤ idx < Z.of_nat (length choices)
    ∧ match r with
      | None => required = false ∧ idx = -1
      | Some obj => 0 ≤ idx ∧ ∃ label, choices !! Z.to_nat idx = Some (obj, label)
      end
    ∧ log w' = log0 ++ (rejected ≫= rejection choices prompt default required)
                 ++ [Prompted prompt default idx].
Proof.
  revert log0. induction pending as [|z rest IH]; intros log0; [done|].
  cbn [select_loop].
  destruct ((z <? cutoff_of required) || (z >=? Z.of_nat (length choices))) eqn:Hrej.
  - intros Hloop. destruct (IH _ Hloop) as (rejected & idx & -> & Hall & Hidx & Hr & Hlog).
    exists (z :: rejected), idx. split; [done|]. split.
    { constructor; [|done]. unfold out_of_range.
      apply orb_true_iff in Hrej as [?%Z.ltb_lt | ?%Z.geb_le]; lia. }
    split; [done|]. split; [done|].
    rewrite Hlog. cbn [mbind list_bind]. unfold rejection at 2.
    by rewrite <- !app_assoc.
  - apply orb_false_iff in Hrej as [Hlo%Z.ltb_ge Hhi].
    assert (z < Z.of_nat (length choices)) as Hhi'.
    { rewrite Z.geb_leb in Hhi. apply Z.leb_gt in Hhi. lia. }
    destruct (Z.eqb_spec z (-1)) as [->|Hne].
    + intros [= <- <-]. exists [], (-1). cbn [answers log].
      split; [done|]. split; [constructor|]. split; [lia|]. split; [|by rewrite app_nil_l].
      split; [|done]. unfold cutoff_of in Hlo. destruct required; [simpl in Hlo; lia|done].
    + assert (0 ≤ z) as Hz.
      { unfold cutoff_of in Hlo. destruct required; simpl in Hlo; lia. }
      destruct (py_index_in_range choices z) as [-> [[obj label] Hc]]; [lia|].
      rewrite Hc. intros [= <- <-]. exists [], z. cbn [answers log].
      split; [done|]. split; [constructor|]. split; [lia|]. split; [|by rewrite app_nil_l].
      split; [done|]. by exists label.
Qed.

(** Progress: a run of rejected answers followed by an accepted one makes
    the loop return. *)
Lemma select_loop_accepts {A} (choices : list (A * string)) prompt default required
    rejected idx rest log0 :
  Forall (out_of_range choices required) rejected →
  cutoff_of required ≤ idx < Z.of_nat (length choices) →
  select_loop choices prompt default required (rejected ++ idx :: rest) log0
  = (Ret (if idx =? -1 then None else fst <$> choices !! Z.to_nat idx),
     World rest (log0 ++ (rejected ≫= rejection choices prompt default required)
                   ++ [Prompted prompt default idx])).
Proof.
  intros Hall Hidx. revert log0.
  induction Hall as [|z rejected Hz _ IH]; intros log0.
  - cbn [app select_loop mbind list_bind].
    destruct (Z.ltb_spec idx (cutoff_of required)); [lia|].
    rewrite Z.geb_leb. destruct (Z.leb_spec (Z.of_nat (length choices)) idx); [lia|].
    cbn [orb]. destruct (Z.eqb_spec idx (-1)) as [->|Hne]; [done|].
    assert (0 ≤ idx) as Hnonneg.
    { unfold cutoff_of in *. destruct required; simpl in *; lia. }
    destruct (py_index_in_range choices idx) as [-> [c Hc]]; [lia|].
    by rewrite Hc.
  - cbn [app select_loop].
    assert ((z <? cutoff_of required) || (z >=? Z.of_nat (length choices)) = true) as ->.
    { apply orb_true_iff. rewrite Z.geb_leb. unfold out_of_range in Hz.
      destruct Hz; [left; by apply Z.ltb_lt | right; by apply Z.leb_le]. }
    rewrite IH. cbn [mbind list_bind]. unfold rejection at 3.
    by rewrite <- !app_assoc.
Qed.

End CommandFacts.

(** ** Item resolution and note editing *)

(** Unfold the plumbing of a command down to its effect on the world. *)
Ltac run_cmd :=
  cbv [mbind M_bind mret M_ret run_search run_notes run_edit emit echo echo_err
       raise ctx_fail except_ValueError];
  cbn [answers log].

Section Resolution.

Context `{Terminal}.

Lemma select_loop_log {A} (choices : list (A * string)) prompt default required pending log0 :
  ∃ evs, log (snd (select_loop choices prompt default required pending log0)) = log0 ++ evs.
Proof.
  revert log0. induction pending as [|z rest IH]; intros log0; cbn [select_loop].
  - exists []. by rewrite app_nil_r.
  - destruct ((z <? cutoff_of required) || (z >=? Z.of_nat (length choices))).
    + destruct (IH ((log0 ++ [Prompted prompt default z])
                      ++ [EchoErr (range_message (cutoff_of required)
                                     (Z.of_nat (length choices) - 1))])) as [evs ->].
      eexists. by rewrite <- !app_assoc.
    + destruct (z =? -1); [by eexists|].
      destruct (py_index choices z); by eexists.
Qed.

Lemma zip_describe_lookup (items : list Item) (i : nat) (it : Item) (label : string) :
  zip items (map describe items) !! i = Some (it, label) ↔
  items !! i = Some it ∧ label = describe it.
Proof.
  revert i. induction items as [|x items IH]; intros i; [by split; [|intros []]|].
  destruct i as [|i]; simpl.
  - split; [by intros [= -> <-] | by intros [[= ->] ->]].
  - apply IH.
Qed.

Lemma zip_describe_length (items : list Item) :
  length (zip items (map describe items)) = length items.
Proof. induction items; simpl; auto. Qed.

(** With several search results [pick_item] is the menu over them. *)
Lemma pick_item_many (zot : Backend) (item_id : string) (w : world) :
  ID_PAT_match item_id = false →
  (1 < length (search zot item_id))%nat →
  pick_item zot item_id w =
    match select_loop (zip (search zot item_id) (map describe (search zot item_id)))
            "Please choose one" 0 true (answers w)
            (log w ++ [Searched item_id; Echo "Multiple matches available."]
               ++ menu 0 (zip (search zot item_id) (map describe (search zot item_id)))) with
    | (Ret (Some it), w') => (Ret (Some (key it)), w')
    | (Ret None, w') => (Raise AttributeError, w')
    | (Raise e, w') => (Raise e, w')
    end.
Proof.
  intros Hid Hmany. unfold pick_item. rewrite Hid. cbn [negb].
  run_cmd. apply Nat.ltb_lt in Hmany. rewrite Hmany.
  rewrite select_unfold. cbn [answers log].
  rewrite <- !app_assoc. cbn [app].
  destruct (select_loop _ _ _ _ _ _) as [[[it|]|e] w']; done.
Qed.

(** C9: when [select] returns, the user entered a run of answers outside
    the accepted range, each rejected with the range message and followed
    by a new prompt, and then one answer inside the range from the cutoff
    (-1 when not required, 0 otherwise) to the last index; the result is
    the object of the choice at that index, or [None], and [None] only
    when [required] is false and that answer is -1. *)
Theorem select_returns_choice_or_None {A} (choices : list (A * string))
    (prompt : string) (default : Z) (required : bool) (w w' : world) (r : option A) :
  select choices prompt default required w = (Ret r, w') →
  ∃ rejected idx,
    answers w = rejected ++ idx :: answers w'
    ∧ Forall (out_of_range choices required) rejected
    ∧ cutoff_of required ≤ idx < Z.of_nat (length choices)
    ∧ match r with
      | None => required = false ∧ idx = -1
      | Some obj => 0 ≤ idx ∧ ∃ label, choices !! Z.to_nat idx = Some (obj, label)
      end
    ∧ log w' = log w ++ menu 0 choices
                 ++ (rejected ≫= rejection choices prompt default required)
                 ++ [Prompted prompt default idx].
Proof.
  rewrite select_unfold. intros Hloop.
  destruct (select_loop_returns _ _ _ _ _ _ _ _ Hloop)
    as (rejected & idx & Hans & Hrej & Hidx & Hr & Hlog).
  exists rejected, idx.
  split; [done|]. split; [done|]. split; [done|]. split; [done|].
  by rewrite Hlog, <- app_assoc.
Qed.

(** C4: an identifier that does not match the key pattern and whose search
    finds nothing makes [pick_item] raise [ValueError]; no key is
    returned. *)
Theorem pick_item_not_found (zot : Backend) (item_id : string) (w : world) :
  ID_PAT_match item_id = false →
  search zot item_id = [] →
  pick_item zot item_id w
  = (Raise (ValueError "Could not find any items for the query."),
     World (answers w) (log w ++ [Searched item_id])).
Proof.
  intros Hid Hnone. unfold pick_item. rewrite Hid. cbn [negb].
  run_cmd. by rewrite Hnone.
Qed.

(** C5: an identifier that does not match the key pattern and whose search
    finds exactly one Item resolves to the key of that Item. *)
Theorem pick_item_single (zot : Backend) (item_id : string) (it : Item) (w : world) :
  ID_PAT_match item_id = false →
  search zot item_id = [it] →
  pick_item zot item_id w
  = (Ret (Some (key it)), World (answers w) (log w ++ [Searched item_id])).
Proof.
  intros Hid Hone. unfold pick_item. rewrite Hid. cbn [negb].
  run_cmd. by rewrite Hone.
Qed.

(** C3: with more than one search result for an identifier that does not
    match the key pattern, [pick_item] prints one numbered menu line per
    matching Item, in search order, and the key it returns is the key of
    the Item at an index the user entered: without an answer nothing is
    returned, and every Item is returned when its index is entered. *)
Theorem pick_item_ambiguous (zot : Backend) (item_id : string) (w : world) :
  ID_PAT_match item_id = false →
  (1 < length (search zot item_id))%nat →
  let items := search zot item_id in
  let choices := zip items (map describe items) in
  ∃ r w',
    pick_item zot item_id w = (r, w')
    ∧ (∃ evs, log w' = log w ++ [Searched item_id; Echo "Multiple matches available."]
                         ++ menu 0 choices ++ evs)
    ∧ length (menu 0 choices) = length items
    ∧ (∀ i it, items !! i = Some it →
               menu 0 choices !! i = Some (Echo (menu_line i (describe it))))
    ∧ (∀ k, r = Ret k →
            ∃ rejected idx it,
              answers w = rejected ++ idx :: answers w'
              ∧ Forall (out_of_range choices true) rejected
              ∧ 0 ≤ idx ∧ items !! Z.to_nat idx = Some it ∧ k = Some (key it))
    ∧ (answers w = [] → r = Raise Abort)
    ∧ (∀ i it rest, items !! i = Some it → answers w = Z.of_nat i :: rest →
                    r = Ret (Some (key it))).
Proof.
  intros Hid Hmany items choices.
  rewrite (pick_item_many _ _ _ Hid Hmany). fold items. fold choices.
  set (log0 := log w ++ _).
  destruct (select_loop_log choices "Please choose one" 0 true (answers w) log0) as [evs Hlog].
  destruct (select_loop choices "Please choose one" 0 true (answers w) log0)
    as [res w1] eqn:Hloop.
  cbn [snd] in Hlog.
  assert (∀ i it, items !! i = Some it → choices !! i = Some (it, describe it)) as Hchoice.
  { intros i it Hi. by apply zip_describe_lookup. }
  exists (match res with
          | Ret (Some it) => Ret (Some (key it))
          | Ret None => Raise AttributeError
          | Raise e => Raise e
          end), w1.
  split.
  { destruct res as [[it|]|e]; reflexivity. }
  split.
  { exists evs. rewrite Hlog. unfold log0. by rewrite <- !app_assoc. }
  split.
  { unfold menu. rewrite length_imap. apply zip_describe_length. }
  split.
  { intros i it Hi. unfold menu. rewrite list_lookup_imap, (Hchoice _ _ Hi). done. }
  split.
  { intros k Hk.
    destruct res as [[it|]|e]; try done. injection Hk as <-.
    destruct (select_loop_returns _ _ _ _ _ _ _ _ Hloop)
      as (rejected & idx & Hans & Hrej & _ & (Hpos & label & Hc) & _).
    apply zip_describe_lookup in Hc as [Hit _].
    by exists rejected, idx, it. }
  split.
  { intros Hnil. rewrite Hnil in Hloop. cbn in Hloop. by injection Hloop as <- <-. }
  intros i it rest Hi Hans.
  assert (i < length items)%nat as Hlt by (by apply lookup_lt_Some in Hi).
  assert (select_loop choices "Please choose one" 0 true ([] ++ Z.of_nat i :: rest) log0
          = (Ret (Some it), World rest (log0 ++ [] ++ [Prompted "Please choose one" 0 (Z.of_nat i)])))
    as Hacc.
  { rewrite select_loop_accepts.
    - destruct (Z.eqb_spec (Z.of_nat i) (-1)); [lia|].
      by rewrite Nat2Z.id, (Hchoice _ _ Hi).
    - constructor.
    - unfold choices. rewrite zip_describe_length. unfold cutoff_of. simpl. lia. }
  cbn [app] in Hacc. rewrite <- Hans, Hloop in Hacc. by injection Hacc as -> _.
Qed.

(** C1, as the code has it: for an identifier that matches the key pattern
    [pick_item] issues no search and changes nothing, and its body ends
    without a [return]: the result is [None], not the identifier. *)
Theorem pick_item_key_gives_None (zot : Backend) (item_id : string) (w : world) :
  ID_PAT_match item_id = true →
  pick_item zot item_id w = (Ret None, w).
Proof.
  intros Hid. unfold pick_item. by rewrite Hid.
Qed.

(** C7, as the code has it: the pattern is matched at the start of the
    identifier only, so every string that begins with eight characters of
    [A-Z0-9] skips the search, whatever follows them. *)
Theorem pick_item_long_identifier_skips_search
    (zot : Backend) (k extra : string) (w : world) :
  String.length k = 8%nat →
  PyStr.all_chars id_char k = true →
  ID_PAT_match (k +:+ extra) = true
  ∧ pick_item zot (k +:+ extra) w = (Ret None, w).
Proof.
  intros Hlen Hall.
  assert (ID_PAT_match (k +:+ extra) = true) as Hid.
  { apply ID_PAT_match_iff. by exists k, extra. }
  split; [done|]. unfold pick_item. by rewrite Hid.
Qed.

(** C10, amended: when [pick_item] resolved the identifier and the item
    has at least one note, an explicit note number at or beyond the number
    of notes, or below minus that number, makes [edit_note] raise
    [IndexError] right after the notes were read: nothing is edited or
    saved and the error is not turned into a usage failure. *)
Theorem edit_note_index_error (zot : Backend) (item_id : string) (note_num : Z)
    (w w1 : world) (picked : option string) :
  pick_item zot item_id w = (Ret picked, w1) →
  notes zot picked ≠ [] →
  Z.of_nat (length (notes zot picked)) ≤ note_num
    ∨ note_num < - Z.of_nat (length (notes zot picked)) →
  edit_note zot item_id (Some note_num) w
  = (Raise IndexError, World (answers w1) (log w1 ++ [NotesRead picked])).
Proof.
  intros Hpick Hnotes Hrange. unfold edit_note.
  run_cmd. rewrite Hpick. cbn [answers log].
  rewrite bool_decide_eq_false_2 by done.
  by rewrite (py_index_out_of_range _ _ Hrange).
Qed.

End Resolution.

(** ** Runs of the commands on the sample library *)

#[local] Existing Instance ansi_terminal.

Lemma select_returns_choice_or_None_witness :
  let choices := [(1%nat, "a"); (2%nat, "b")] in
  let w := World [-2; 2; -1] [] in
  let w' := snd (select choices "p" 0 false w) in
  ∃ rejected idx,
    answers w = rejected ++ idx :: answers w'
    ∧ Forall (out_of_range choices false) rejected
    ∧ cutoff_of false ≤ idx < Z.of_nat (length choices)
    ∧ (false = false ∧ idx = -1)
    ∧ log w' = log w ++ menu 0 choices
                 ++ (rejected ≫= rejection choices "p" 0 false)
                 ++ [Prompted "p" 0 idx].
Proof.
  intros choices w w'.
  apply (select_returns_choice_or_None choices "p" 0 false w w' None).
  vm_compute. reflexivity.
Defined.

Lemma pick_item_not_found_witness :
  pick_item Sample.zot "nothing" Sample.quiet
  = (Raise (ValueError "Could not find any items for the query."),
     World [] [Searched "nothing"]).
Proof.
  apply (pick_item_not_found Sample.zot "nothing" Sample.quiet); reflexivity.
Defined.

Lemma pick_item_single_witness :
  pick_item Sample.zot "one" Sample.quiet
  = (Ret (Some "BBBB2222"), World [] [Searched "one"]).
Proof.
  apply (pick_item_single Sample.zot "one" Sample.it2 Sample.quiet); reflexivity.
Defined.

Lemma pick_item_ambiguous_witness :
  ∃ r w',
    pick_item Sample.zot "Neural Networks" Sample.three_answers = (r, w')
    ∧ (∀ k, r = Ret k →
            ∃ rejected idx it,
              [5; 1; 7] = rejected ++ idx :: answers w'
              ∧ 0 ≤ idx
              ∧ [Sample.it1; Sample.it2] !! Z.to_nat idx = Some it
              ∧ k = Some (key it))
    ∧ (∀ i it rest, [Sample.it1; Sample.it2] !! i = Some it →
                    [5; 1; 7] = Z.of_nat i :: rest → r = Ret (Some (key it))).
Proof.
  destruct (pick_item_ambiguous Sample.zot "Neural Networks" Sample.three_answers)
    as (r & w' & Hrun & _ & _ & _ & Hpicked & _ & Hany).
  - reflexivity.
  - simpl. lia.
  - exists r, w'. split; [exact Hrun|]. split; [|exact Hany].
    intros k Hk. destruct (Hpicked k Hk) as (rejected & idx & it & Ha & _ & Hrest).
    exists rejected, idx, it. split; [exact Ha | exact Hrest].
Defined.

Lemma pick_item_key_gives_None_witness :
  pick_item Sample.zot "ABCD1234" Sample.quiet = (Ret None, Sample.quiet).
Proof.
  apply (pick_item_key_gives_None Sample.zot "ABCD1234" Sample.quiet). reflexivity.
Defined.

Lemma pick_item_long_identifier_witness :
  ID_PAT_match "ABCD1234XYZ" = true
  ∧ pick_item Sample.zot "ABCD1234XYZ" Sample.quiet = (Ret None, Sample.quiet).
Proof.
  apply (pick_item_long_identifier_skips_search Sample.zot "ABCD1234" "XYZ" Sample.quiet);
    reflexivity.
Defined.

Lemma edit_note_index_error_witness :
  edit_note Sample.zot "one" (Some 1) Sample.quiet
  = (Raise IndexError, World [] [Searched "one"; NotesRead (Some "BBBB2222")]).
Proof.
  apply (edit_note_index_error Sample.zot "one" 1 Sample.quiet
           (World [] [Searched "one"]) (Some "BBBB2222")).
  - reflexivity.
  - discriminate.
  - left. simpl. lia.
Defined.

(** C10, as stated, fails for an item without notes: note number 0 is not
    below the number of notes, and [edit_note] stops with the usage
    failure of its emptiness test, before any indexing. *)
Lemma edit_note_without_notes_is_usage_failure :
  Z.of_nat (length (notes Sample.zot_without_notes (Some "BBBB2222"))) ≤ 0
  ∧ pick_item Sample.zot_without_notes "one" Sample.quiet
    = (Ret (Some "BBBB2222"), World [] [Searched "one"])
  ∧ fst (edit_note Sample.zot_without_notes "one" (Some 0) Sample.quiet)
    = Raise (UsageError "The item does not have any notes.")
  ∧ fst (edit_note Sample.zot_without_notes "one" (Some 0) Sample.quiet)
    ≠ Raise IndexError.
Proof.
  split; [simpl; lia|]. split; [reflexivity|]. split; [reflexivity|]. discriminate.
Qed.

(** ** Storage-directory discovery *)

Lemma name_snoc (p : Fs.path) (n : string) : Fs.name (p ++ [n]) = n.
Proof. unfold Fs.name. by rewrite last_snoc. Qed.

Lemma PROFILE_PAT_match_iff (s g1 g2 : string) :
  PROFILE_PAT_match s = Some (g1, g2) ↔
  ∃ rest, s = g1 +:+ "." +:+ rest
          ∧ String.length g1 = 8%nat
          ∧ PyStr.all_chars profile_char g1 = true
          ∧ g2 = fst (Re.dot_star rest).
Proof.
  unfold PROFILE_PAT_match. split.
  - destruct (Re.class_rep profile_char 8 s) as [[m r]|] eqn:Hm; [|done].
    apply class_rep_sound in Hm as (-> & Hlen & Hall).
    destruct r as [|c r]; [done|]. simpl.
    destruct (Ascii.eqb_spec c ".") as [->|]; [|done].
    intros [= <- <-]. by exists r.
  - intros (rest & -> & Hlen & Hall & ->).
    rewrite <- Hlen. rewrite class_rep_complete by done. simpl. done.
Qed.

(** What the loop over the candidates yields. *)
Lemma elem_of_scan_candidates (fs : Fs.node) (candidates : list Fs.path)
    (suffix : string) (sp : Fs.path) :
  (suffix, sp) ∈ scan_candidates fs candidates ↔
  ∃ fpath g1,
    fpath ∈ candidates
    ∧ Fs.is_dir fs fpath = true
    ∧ PROFILE_PAT_match (Fs.name fpath) = Some (g1, suffix)
    ∧ sp = fpath ++ ["zotero"; "storage"]
    ∧ Fs.exists_ fs sp = true.
Proof.
  induction candidates as [|c rest IH].
  - simpl. split; [by intros ?%elem_of_nil|]. by intros (? & ? & ?%elem_of_nil & _).
  - assert ((∃ fpath g1, fpath ∈ c :: rest ∧ Fs.is_dir fs fpath = true
               ∧ PROFILE_PAT_match (Fs.name fpath) = Some (g1, suffix)
               ∧ sp = fpath ++ ["zotero"; "storage"] ∧ Fs.exists_ fs sp = true)
            ↔ (Fs.is_dir fs c = true
               ∧ (∃ g1, PROFILE_PAT_match (Fs.name c) = Some (g1, suffix))
               ∧ sp = c ++ ["zotero"; "storage"] ∧ Fs.exists_ fs sp = true)
              ∨ (suffix, sp) ∈ scan_candidates fs rest) as ->.
    { rewrite IH. split.
      - intros (fpath & g1 & [->|Hin]%elem_of_cons & Hd & Hm & Hsp & He).
        + left. eauto.
        + right. eauto 10.
      - intros [(Hd & [g1 Hm] & Hsp & He) | (fpath & g1 & Hin & Hrest)].
        + exists c, g1. split; [left|]; done.
        + exists fpath, g1. split; [by right|done]. }
    cbn [scan_candidates].
    destruct (Fs.is_dir fs c) eqn:Hd; cbn [negb].
    2: { split; [by right|]. by intros [(? & _)|]. }
    destruct (PROFILE_PAT_match (Fs.name c)) as [[g1 g2]|] eqn:Hm.
    2: { split; [by right|]. by intros [(_ & [? ?] & _)|]. }
    destruct (Fs.exists_ fs (c ++ ["zotero"; "storage"])) eqn:He.
    + rewrite elem_of_cons. split.
      * intros [[= -> ->]|Hin]; [left|by right]. eauto.
      * intros [(_ & [g1' [= <- <-]] & -> & _)|Hin]; [by left|by right].
    + split; [by right|]. intros [(_ & _ & -> & He')|]; [congruence|done].
Qed.

(** C6, amended: when [HOME] is set and both profile containers can be
    listed, [find_storage_directories] ends without an exception and yields
    the pair of a suffix and a storage path exactly for the entries of the
    two containers that are directories, whose name matches the profile
    pattern with that suffix as its second group, and under which the path
    [zotero/storage] exists; the storage path yielded is that path. *)
Theorem find_storage_directories_candidates
    (environ : gmap string Fs.path) (fs : Fs.node) (home_dir : Fs.path)
    (firefox_names zotero_names : list string) :
  environ !! "HOME" = Some home_dir →
  Fs.listdir fs (home_dir ++ [".mozilla"; "firefox"]) = Some firefox_names →
  Fs.listdir fs (home_dir ++ [".zotero"]) = Some zotero_names →
  raised (find_storage_directories environ fs) = None
  ∧ ∀ suffix sp,
      (suffix, sp) ∈ yielded (find_storage_directories environ fs) ↔
      ∃ container name g1,
        (container = home_dir ++ [".mozilla"; "firefox"] ∧ name ∈ firefox_names
         ∨ container = home_dir ++ [".zotero"] ∧ name ∈ zotero_names)
        ∧ Fs.is_dir fs (container ++ [name]) = true
        ∧ PROFILE_PAT_match name = Some (g1, suffix)
        ∧ sp = container ++ [name; "zotero"; "storage"]
        ∧ Fs.exists_ fs sp = true.
Proof.
  intros Hhome Hff Hzot. unfold find_storage_directories. rewrite Hhome.
  unfold Fs.iterdir. rewrite Hff, Hzot. unfold chain. cbn [raised yielded].
  split; [done|]. intros suffix sp.
  rewrite elem_of_scan_candidates. split.
  - intros (fpath & g1 & Hin & Hd & Hm & -> & He).
    apply elem_of_app in Hin as [Hin|Hin];
      apply list_elem_of_fmap in Hin as (name & -> & Hname);
      rewrite name_snoc in Hm; rewrite <- app_assoc in He |- *;
      eexists _, name, g1; (split; [|done]); [left|right]; done.
  - intros (container & name & g1 & Hwhere & Hd & Hm & -> & He).
    exists (container ++ [name]), g1. rewrite name_snoc, <- !app_assoc.
    split; [|done].
    apply elem_of_app.
    destruct Hwhere as [[-> Hin]|[-> Hin]]; [left|right];
      apply list_elem_of_fmap; by exists name.
Qed.

Lemma find_storage_directories_candidates_witness :
  raised (find_storage_directories Sample.environ Sample.fs) = None
  ∧ ("default", Sample.firefox_dir ++ ["abcd1234.default"; "zotero"; "storage"])
      ∈ yielded (find_storage_directories Sample.environ Sample.fs).
Proof.
  destruct (find_storage_directories_candidates Sample.environ Sample.fs ["home"; "u"]
              ["abcd1234.default"; "wxyz5678.old"; "profiles.ini"] [])
    as [Hraised Hyield].
  - reflexivity.
  - reflexivity.
  - reflexivity.
  - split; [exact Hraised|].
    apply Hyield. exists Sample.firefox_dir, "abcd1234.default", "abcd1234".
    split; [left; split; [reflexivity | left]|].
    split; [reflexivity|]. split; [reflexivity|]. split; reflexivity.
Defined.

(** C6, as stated, fails on the sample home directory: the profile
    [wxyz5678.old] has a matching name and a [storage] subdirectory, and
    discovery yields nothing for it. *)
Lemma storage_subdirectory_is_not_enough :
  let dir := Sample.firefox_dir ++ ["wxyz5678.old"] in
  spec_is_candidate Sample.fs dir = true
  ∧ ¬ ∃ suffix sp, (suffix, sp) ∈ yielded (find_storage_directories Sample.environ Sample.fs)
                   ∧ dir `prefix_of` sp.
Proof.
  split; [reflexivity|].
  intros (suffix & sp & Hin & Hpre). vm_compute in Hin.
  apply list_elem_of_singleton in Hin as [= -> ->].
  destruct Hpre as [k Hk]. discriminate Hk.
Qed.

(** ** The sync engine *)

Lemma pull_failed (pages : list SyncEngine.page_result) (b : SyncEngine.batch) :
  Exists SyncEngine.failed pages →
  ∃ e b', SyncEngine.pull pages b = inl (e, b').
Proof.
  intros Hex. revert b. induction Hex as [pr rest Hfail | pr rest _ IH]; intros b.
  - destruct pr as [p | applied e]; [done|]. by exists e, (SyncEngine.apply_page applied b).
  - destruct pr as [p | applied e]; simpl; [apply IH|]. by eexists _, _.
Qed.

(** C2: when some page of the pull fails, [synchronize] ends with the
    error and the Local Store exactly as it was: the cursor is unchanged,
    the records are unchanged, and a retry from that state is the same
    call on the same state. *)
Theorem synchronize_failure_leaves_store
    (r : SyncEngine.remote) (s : SyncEngine.LocalStore) :
  Exists SyncEngine.failed
    (r (SyncEngine.last_synced_version (SyncEngine.sync_state s))) →
  ∃ e,
    SyncEngine.synchronize r s = (inl e, s)
    ∧ SyncEngine.last_synced_version (SyncEngine.sync_state (snd (SyncEngine.synchronize r s)))
      = SyncEngine.last_synced_version (SyncEngine.sync_state s)
    ∧ SyncEngine.records (snd (SyncEngine.synchronize r s)) = SyncEngine.records s
    ∧ SyncEngine.synchronize r (snd (SyncEngine.synchronize r s))
      = SyncEngine.synchronize r s.
Proof.
  intros Hfail.
  destruct (pull_failed _ (SyncEngine.begin s) Hfail) as (e & b' & Hpull).
  assert (SyncEngine.synchronize r s = (inl e, s)) as Hsync.
  { unfold SyncEngine.synchronize. by rewrite Hpull. }
  exists e. rewrite Hsync. done.
Qed.

Lemma synchronize_failure_leaves_store_witness :
  ∃ e,
    SyncEngine.synchronize Sample.flaky_remote Sample.store = (inl e, Sample.store)
    ∧ SyncEngine.last_synced_version
        (SyncEngine.sync_state
           (snd (SyncEngine.synchronize Sample.flaky_remote Sample.store)))
      = Some 3
    ∧ SyncEngine.records (snd (SyncEngine.synchronize Sample.flaky_remote Sample.store)) = ∅
    ∧ SyncEngine.synchronize Sample.flaky_remote
        (snd (SyncEngine.synchronize Sample.flaky_remote Sample.store))
      = SyncEngine.synchronize Sample.flaky_remote Sample.store.
Proof.
  apply (synchronize_failure_leaves_store Sample.flaky_remote Sample.store).
  apply Exists_cons_tl, Exists_cons_hd. exact I.
Defined.

(** * Further properties of the command layer *)

(** ** More on the menu *)

Section MenuExtras.

Context `{Terminal}.

(** A loop that raises has rejected every pending answer and stopped at
    the end of the input. *)
Lemma select_loop_raises {A} (choices : list (A * string)) prompt default required
    pending log0 e w' :
  select_loop choices prompt default required pending log0 = (Raise e, w') →
  e = Abort ∧ answers w' = [] ∧ Forall (out_of_range choices required) pending.
Proof.
  revert log0. induction pending as [|z rest IH]; intros log0; cbn [select_loop].
  - by intros [= <- <-].
  - destruct ((z <? cutoff_of required) || (z >=? Z.of_nat (length choices))) eqn:Hrej.
    + intros Hloop. destruct (IH _ Hloop) as (-> & Hans & Hall).
      split; [done|]. split; [done|]. constructor; [|done].
      unfold out_of_range. apply orb_true_iff in Hrej as [?%Z.ltb_lt | ?%Z.geb_le]; lia.
    + apply orb_false_iff in Hrej as [Hlo%Z.ltb_ge Hhi].
      rewrite Z.geb_leb in Hhi. apply Z.leb_gt in Hhi.
      destruct (Z.eqb_spec z (-1)); [done|].
      assert (0 ≤ z) as Hz.
      { unfold cutoff_of in Hlo. destruct required; simpl in Hlo; lia. }
      destruct (py_index_in_range choices z) as [-> [c ->]]; [lia|]. done.
Qed.

(** X1: [select] skips every answer outside the accepted range and returns
    on the first answer inside it: the object of the choice at that index,
    or [None] for -1, leaving the later answers unread. *)
Theorem select_returns_first_accepted {A} (choices : list (A * string))
    (prompt : string) (default : Z) (required : bool)
    (rejected : list Z) (idx : Z) (rest : list Z) (log0 : list event) :
  Forall (out_of_range choices required) rejected →
  cutoff_of required ≤ idx < Z.of_nat (length choices) →
  select choices prompt default required (World (rejected ++ idx :: rest) log0)
  = (Ret (if idx =? -1 then None else fst <$> choices !! Z.to_nat idx),
     World rest (log0 ++ menu 0 choices
                   ++ (rejected ≫= rejection choices prompt default required)
                   ++ [Prompted prompt default idx])).
Proof.
  intros Hrej Hidx. rewrite select_unfold. cbn [answers log].
  rewrite (select_loop_accepts _ _ _ _ _ _ rest _ Hrej Hidx). by rewrite <- !app_assoc.
Qed.

(** X2: the only exception [select] raises is the abort of the prompt at
    the end of the input, after every answer was rejected; indexing the
    choices never fails. *)
Theorem select_raises_only_Abort {A} (choices : list (A * string))
    (prompt : string) (default : Z) (required : bool) (w w' : world) (e : exn) :
  select choices prompt default required w = (Raise e, w') →
  e = Abort ∧ answers w' = [] ∧ Forall (out_of_range choices required) (answers w).
Proof.
  rewrite select_unfold. apply select_loop_raises.
Qed.

(** X3: without choices a required [select] never returns, whatever is
    entered, and one that is not required can only return [None]. *)
Theorem select_without_choices {A} (prompt : string) (default : Z) (w : world) :
  (∃ w', select (A:=A) [] prompt default true w = (Raise Abort, w'))
  ∧ (∀ r w', select (A:=A) [] prompt default false w = (Ret r, w') → r = None).
Proof.
  split.
  - destruct (select (A:=A) [] prompt default true w) as [[r|e] w'] eqn:Hsel.
    + rewrite select_unfold in Hsel.
      destruct (select_loop_returns _ _ _ _ _ _ _ _ Hsel)
        as (_ & idx & _ & _ & Hidx & _). unfold cutoff_of in Hidx. simpl in Hidx. lia.
    + rewrite select_unfold in Hsel.
      destruct (select_loop_raises _ _ _ _ _ _ _ _ Hsel) as (-> & _). by exists w'.
  - intros r w'. rewrite select_unfold. intros Hsel.
    destruct (select_loop_returns _ _ _ _ _ _ _ _ Hsel)
      as (_ & idx & _ & _ & _ & Hr & _).
    destruct r as [obj|]; [|done]. by destruct Hr as (_ & label & ?).
Qed.

End MenuExtras.

(** ** More on item resolution and note editing *)

Lemma filter_none {A} (f : A → bool) (l : list A) :
  Forall (λ x, f x = false) l → List.filter f l = [].
Proof. induction 1 as [|x l Hx _ IH]; simpl; [done|]. by rewrite Hx. Qed.

Lemma py_index_wraps {A} (l : list A) (i : Z) :
  - Z.of_nat (length l) ≤ i < 0 → py_index l i = py_index l (i + Z.of_nat (length l)).
Proof.
  intros Hi. unfold py_index.
  destruct (Z.leb_spec 0 i); [lia|]. cbn [andb].
  destruct (Z.leb_spec (- Z.of_nat (length l)) i); [|lia].
  destruct (Z.ltb_spec i 0); [|lia]. cbn [andb].
  destruct (Z.leb_spec 0 (i + Z.of_nat (length l))); [|lia].
  destruct (Z.ltb_spec (i + Z.of_nat (length l)) (Z.of_nat (length l))); [|lia].
  cbn [andb]. f_equal. lia.
Qed.

Lemma py_index_Some_nonempty {A} (l : list A) (i : Z) (x : A) :
  py_index l i = Some x → l ≠ [].
Proof. intros Hx ->. unfold py_index in Hx. by repeat case_match. Qed.

Section ResolutionExtras.

Context `{Terminal}.

Lemma menu_no_search {A} (idx : nat) (choices : list (A * string)) :
  List.filter is_search (menu idx choices) = [].
Proof.
  apply filter_none, Forall_lookup. intros i e. unfold menu.
  rewrite list_lookup_imap. destruct (choices !! i); [|done]. by intros [= <-].
Qed.

Lemma select_loop_no_search {A} (choices : list (A * string)) prompt default required
    pending log0 :
  ∃ evs, log (snd (select_loop choices prompt default required pending log0)) = log0 ++ evs
         ∧ List.filter is_search evs = [].
Proof.
  revert log0. induction pending as [|z rest IH]; intros log0; cbn [select_loop].
  - exists []. by rewrite app_nil_r.
  - destruct ((z <? cutoff_of required) || (z >=? Z.of_nat (length choices))).
    + destruct (IH ((log0 ++ [Prompted prompt default z])
                      ++ [EchoErr (range_message (cutoff_of required)
                                     (Z.of_nat (length choices) - 1))])) as (evs & -> & Hnone).
      eexists (_ :: _ :: evs). split; [by rewrite <- !app_assoc|]. done.
    + destruct (z =? -1); [by eexists [_]|].
      destruct (py_index choices z); by eexists [_].
Qed.

(** X4: a key that [pick_item] returns is the key of one of the Items the
    search gave for the identifier, and the identifier did not match the
    key pattern; no other key is ever returned. *)
Theorem pick_item_returns_found_key (zot : Backend) (item_id k : string) (w w' : world) :
  pick_item zot item_id w = (Ret (Some k), w') →
  ID_PAT_match item_id = false ∧ ∃ it, it ∈ search zot item_id ∧ key it = k.
Proof.
  destruct (ID_PAT_match item_id) eqn:Hid.
  { unfold pick_item. rewrite Hid. done. }
  intros Hpick. split; [done|].
  destruct (decide (1 < length (search zot item_id))%nat) as [Hmany|Hfew].
  - rewrite (pick_item_many _ _ _ Hid Hmany) in Hpick.
    destruct (select_loop _ _ _ _ _ _) as [[[it|]|e] w1] eqn:Hloop; try done.
    injection Hpick as <- <-.
    destruct (select_loop_returns _ _ _ _ _ _ _ _ Hloop)
      as (_ & idx & _ & _ & _ & (_ & label & Hc) & _).
    apply zip_describe_lookup in Hc as [Hit _].
    exists it. split; [|done]. by eapply list_elem_of_lookup_2.
  - unfold pick_item in Hpick. rewrite Hid in Hpick. cbn [negb] in Hpick.
    revert Hpick. run_cmd.
    destruct (Nat.ltb_spec 1 (length (search zot item_id))); [lia|].
    destruct (search zot item_id) as [|it rest]; [done|].
    intros [= <- <-]. exists it. split; [left|done].
Qed.

(** X5: [pick_item] only adds to the log, and what it adds holds no search
    for an identifier that matches the key pattern and exactly one search,
    of the identifier itself, for any other. *)
Theorem pick_item_searches_once (zot : Backend) (item_id : string) (w : world) :
  ∃ evs,
    log (snd (pick_item zot item_id w)) = log w ++ evs
    ∧ List.filter is_search evs
      = if ID_PAT_match item_id then [] else [Searched item_id].
Proof.
  destruct (ID_PAT_match item_id) eqn:Hid.
  { exists []. unfold pick_item. rewrite Hid. by rewrite app_nil_r. }
  destruct (decide (1 < length (search zot item_id))%nat) as [Hmany|Hfew].
  - rewrite (pick_item_many _ _ _ Hid Hmany).
    set (choices := zip _ _). set (log0 := log w ++ _).
    destruct (select_loop_no_search choices "Please choose one" 0 true (answers w) log0)
      as (evs & Hlog & Hnone).
    exists ([Searched item_id; Echo "Multiple matches available."] ++ menu 0 choices ++ evs).
    split.
    + destruct (select_loop _ _ _ _ _ _) as [[[it|]|e] w1]; cbn [snd] in *;
        rewrite Hlog; unfold log0; by rewrite <- !app_assoc.
    + cbn [app List.filter is_search]. by rewrite List.filter_app, menu_no_search, Hnone.
  - exists [Searched item_id]. split; [|done].
    unfold pick_item. rewrite Hid. cbn [negb]. run_cmd.
    destruct (Nat.ltb_spec 1 (length (search zot item_id))); [lia|].
    by destruct (search zot item_id).
Qed.

(** X6: a negative note number counts from the end: when the identifier
    resolves, [edit_note] with a number between minus the number of notes
    and -1 does exactly what it does with that number plus the number of
    notes. *)
Theorem edit_note_negative_number (zot : Backend) (item_id : string) (note_num : Z)
    (w w1 : world) (picked : option string) :
  pick_item zot item_id w = (Ret picked, w1) →
  - Z.of_nat (length (notes zot picked)) ≤ note_num < 0 →
  edit_note zot item_id (Some note_num) w
  = edit_note zot item_id (Some (note_num + Z.of_nat (length (notes zot picked)))) w.
Proof.
  intros Hpick Hrange. unfold edit_note. run_cmd. rewrite Hpick. cbn [answers log].
  by rewrite (py_index_wraps _ _ Hrange).
Qed.

(** X7: when the identifier resolves and the note number selects a note,
    [edit_note] opens the editor on the text of that note with the
    extension of the note format, and saves the note, with the new text
    and its key unchanged, exactly when the editor gives back a text that
    is not empty. *)
Theorem edit_note_saves_nonempty_text (zot : Backend) (item_id : string) (note_num : Z)
    (w w1 : world) (picked : option string) (note : Note) :
  pick_item zot item_id w = (Ret picked, w1) →
  py_index (notes zot picked) note_num = Some note →
  let extension := get_extension (note_format zot) in
  let updated_text := edit (note_text note) extension in
  edit_note zot item_id (Some note_num) w
  = (Ret tt,
     World (answers w1)
       (log w1 ++ [NotesRead picked; Edited (note_text note) extension updated_text]
          ++ match updated_text with
             | Some text =>
                 if String.eqb text "" then []
                 else [NoteSaved {| note_key := note_key note; note_text := text |}]
             | None => []
             end)).
Proof.
  intros Hpick Hnote extension updated_text.
  unfold edit_note. run_cmd. rewrite Hpick. cbn [answers log].
  rewrite bool_decide_eq_false_2 by (by eapply py_index_Some_nonempty).
  rewrite Hnote. fold extension. fold updated_text.
  destruct updated_text as [text|]; cbn [truthy].
  - destruct (String.eqb text ""); cbn [answers log negb default from_option id];
      by rewrite <- !app_assoc.
  - cbn [answers log]. by rewrite <- !app_assoc.
Qed.

(** X8: with a single note and no note number [edit_note] shows no menu
    and asks nothing: it does what it does for note number 0. *)
Theorem edit_note_single_note_skips_menu (zot : Backend) (item_id : string)
    (w w1 : world) (picked : option string) (note : Note) :
  pick_item zot item_id w = (Ret picked, w1) →
  notes zot picked = [note] →
  edit_note zot item_id None w = edit_note zot item_id (Some 0) w.
Proof.
  intros Hpick Hnotes. unfold edit_note. run_cmd. rewrite Hpick. cbn [answers log].
  by rewrite Hnotes.
Qed.

End ResolutionExtras.

(** ** More on strings, patterns and discovery *)

Lemma string_app_assoc (a b c : string) : (a +:+ b) +:+ c = a +:+ b +:+ c.
Proof.
  induction a as [|x a IH]; [done|].
  change (String x ((a +:+ b) +:+ c) = String x (a +:+ b +:+ c)). by rewrite IH.
Qed.

Lemma all_chars_map_chars (P : ascii → bool) (f : ascii → ascii) (s : string) :
  (∀ c, P (f c) = true) → PyStr.all_chars P (PyStr.map_chars f s) = true.
Proof. intros Hf. induction s as [|c s IH]; simpl; [done|]. by rewrite Hf, IH. Qed.

Lemma length_map_chars (f : ascii → ascii) (s : string) :
  String.length (PyStr.map_chars f s) = String.length s.
Proof. induction s as [|c s IH]; simpl; [done|]. by rewrite IH. Qed.

Lemma contains_ESC_false (P : ascii → bool) (s : string) :
  P "027"%char = false → PyStr.all_chars P s = true → PyStr.contains ESC s = false.
Proof.
  intros Hesc. induction s as [|c s IH]; [done|].
  cbn [PyStr.all_chars]. intros [Hc Hs]%andb_true_iff.
  cbn [PyStr.contains]. rewrite (IH Hs), orb_false_r.
  unfold ESC. cbn [String.prefix].
  destruct (ascii_dec "027" c) as [<-|]; [congruence|done].
Qed.

Lemma dot_star_first_line (s : string) : fst (Re.dot_star s) = PyStr.first_line s.
Proof.
  induction s as [|c s IH]; [done|]. cbn [Re.dot_star PyStr.first_line].
  destruct (Ascii.eqb c "010"); [done|].
  destruct (Re.dot_star s) as [m r]. cbn [fst] in *. by rewrite IH.
Qed.

Lemma first_line_no_line_feed (s : string) :
  PyStr.all_chars (λ c, negb (Ascii.eqb c "010")) (PyStr.first_line s) = true.
Proof.
  induction s as [|c s IH]; [done|]. cbn [PyStr.first_line].
  destruct (Ascii.eqb c "010") eqn:Hc; [done|].
  cbn [PyStr.all_chars]. by rewrite Hc, IH.
Qed.

Lemma prefix_first_line (word s : string) :
  PyStr.all_chars (λ c, negb (Ascii.eqb c "010")) word = true →
  String.prefix word (PyStr.first_line s) = String.prefix word s.
Proof.
  revert s. induction word as [|a word IH]; intros s.
  - intros _. by destruct s, (PyStr.first_line _).
  - cbn [PyStr.all_chars]. intros [Ha Hword]%andb_true_iff.
    destruct s as [|c s]; [done|]. cbn [PyStr.first_line].
    destruct (Ascii.eqb_spec c "010") as [->|Hc].
    + cbn [String.prefix]. destruct (ascii_dec a "010") as [->|]; [done|done].
    + cbn [String.prefix]. destruct (ascii_dec a c); [by apply IH|done].
Qed.

Lemma literal_prefix (word s : string) :
  match StoragePat.literal word s with Some _ => true | None => false end
  = String.prefix word s.
Proof.
  revert s. induction word as [|a word IH]; intros s; [by destruct s|].
  destruct s as [|c s]; [done|]. cbn [StoragePat.literal String.prefix].
  destruct (Ascii.eqb_spec c a) as [->|Hne].
  - destruct (ascii_dec a a); [apply IH|done].
  - destruct (ascii_dec a c); [congruence|done].
Qed.

(** X9: the pattern for a typed storage path is matched by [re.match]
    without an anchor at the end, so it accepts exactly the texts whose
    first line holds the word [storage] somewhere, whatever comes before
    or after it. *)
Theorem storage_pattern_is_containment (s : string) :
  StoragePat.matches s = PyStr.contains "storage" (PyStr.first_line s).
Proof.
  unfold StoragePat.matches.
  set (k := λ r, StoragePat.optional "/" <$> StoragePat.literal "storage" r).
  assert (∀ r, match k r with Some _ => true | None => false end
               = String.prefix "storage" r) as Hk.
  { intros r. unfold k. rewrite <- literal_prefix.
    by destruct (StoragePat.literal "storage" r). }
  induction s as [|c s IH].
  - cbn [StoragePat.dot_star_then PyStr.first_line PyStr.contains].
    rewrite Hk. by rewrite orb_false_r.
  - cbn [StoragePat.dot_star_then PyStr.first_line].
    destruct (Ascii.eqb_spec c "010") as [->|Hc].
    + rewrite Hk. done.
    + assert (String.prefix "storage" (String c (PyStr.first_line s))
              = String.prefix "storage" (String c s)) as Hhead.
      { rewrite <- (prefix_first_line "storage" (String c s)) by done.
        cbn [PyStr.first_line]. by destruct (Ascii.eqb_spec c "010"). }
      cbn [PyStr.contains]. rewrite <- IH, Hhead.
      destruct (StoragePat.dot_star_then k s); [by rewrite orb_true_r|].
      by rewrite Hk, orb_false_r.
Qed.

(** X10: the profile pattern matches exactly the names made of eight
    characters of [a-z0-9], a dot and a rest; the first group is the eight
    characters and the second is the first line of the rest, which may be
    empty and never holds a line feed. *)
Theorem PROFILE_PAT_match_groups (s g1 g2 : string) :
  PROFILE_PAT_match s = Some (g1, g2) ↔
  ∃ rest, s = g1 +:+ "." +:+ rest
          ∧ String.length g1 = 8%nat
          ∧ PyStr.all_chars profile_char g1 = true
          ∧ g2 = PyStr.first_line rest
          ∧ PyStr.all_chars (λ c, negb (Ascii.eqb c "010")) g2 = true.
Proof.
  rewrite PROFILE_PAT_match_iff. split.
  - intros (rest & -> & Hlen & Hall & ->). exists rest.
    rewrite dot_star_first_line. by auto using first_line_no_line_feed.
  - intros (rest & -> & Hlen & Hall & -> & _). exists rest.
    by rewrite dot_star_first_line.
Qed.

(** X11: [get_extension] never gives the empty text, and two formats whose
    names do not contain [mark] never share an extension. *)
Theorem get_extension_distinct (fmt1 fmt2 : string) :
  get_extension fmt1 ≠ ""
  ∧ (PyStr.contains "mark" fmt1 = false → PyStr.contains "mark" fmt2 = false →
     get_extension fmt1 = get_extension fmt2 → fmt1 = fmt2).
Proof.
  unfold get_extension, get_extension_with. rewrite !EXTENSION_MAP_lookup. split.
  - destruct (PyStr.contains "mark" fmt1); [done|]. by repeat case_decide.
  - intros -> ->. repeat case_decide; subst; try done; intros Heq; cbv in Heq; congruence.
Qed.

(** X12: the three ways discovery fails.  Without [HOME] it raises
    [KeyError] at once; when the Firefox container cannot be listed it
    raises [OSError] and yields nothing, whatever the Zotero container
    holds; when only the Zotero container cannot be listed it yields the
    candidates of the Firefox container and then raises [OSError]. *)
Theorem find_storage_directories_failures (environ : gmap string Fs.path) (fs : Fs.node) :
  (environ !! "HOME" = None →
     find_storage_directories environ fs = Generated [] (Some (KeyError "HOME")))
  ∧ (∀ home_dir,
       environ !! "HOME" = Some home_dir →
       Fs.listdir fs (home_dir ++ [".mozilla"; "firefox"]) = None →
       find_storage_directories environ fs = Generated [] (Some OSError))
  ∧ (∀ home_dir names,
       environ !! "HOME" = Some home_dir →
       Fs.listdir fs (home_dir ++ [".mozilla"; "firefox"]) = Some names →
       Fs.listdir fs (home_dir ++ [".zotero"]) = None →
       find_storage_directories environ fs
       = Generated
           (scan_candidates fs (map (λ name, home_dir ++ [".mozilla"; "firefox"; name]) names))
           (Some OSError)).
Proof.
  unfold find_storage_directories. split; [|split].
  - by intros ->.
  - intros home_dir -> Hff. unfold Fs.iterdir. by rewrite Hff.
  - intros home_dir names -> Hff Hzot. unfold Fs.iterdir. rewrite Hff, Hzot.
    unfold chain. cbn [raised yielded]. rewrite app_nil_r.
    do 2 f_equal. apply map_ext. intros name. by rewrite <- app_assoc.
Qed.

Section QueryExtras.

Context `{Terminal}.

(** X13: in the menu of [edit_note] the label of a note is made of word
    characters and spaces only and is as long as the first line of the
    note, so it holds no escape character and [select] prints it styled
    blue after the green index. *)
Theorem note_label_is_plain (n : Note) (idx : nat) :
  PyStr.all_chars (λ c, PyStr.is_word c || Ascii.eqb c " ") (note_label n) = true
  ∧ String.length (note_label n) = String.length (PyStr.first_line (note_text n))
  ∧ menu_line idx (note_label n)
    = style ("[" +:+ PyStr.of_int (Z.of_nat idx) +:+ "]") "green" +:+ " "
        +:+ style (note_label n) "blue".
Proof.
  assert (PyStr.all_chars (λ c, PyStr.is_word c || Ascii.eqb c " ") (note_label n) = true)
    as Hplain.
  { unfold note_label. apply all_chars_map_chars. intros c.
    destruct (PyStr.is_word c) eqn:Hc; [by rewrite Hc|done]. }
  split; [done|]. split.
  - unfold note_label. apply length_map_chars.
  - unfold menu_line. by rewrite (contains_ESC_false _ _ eq_refl Hplain).
Qed.

Lemma for_each_echo {A} (f : A → string) (l : list A) (w : world) :
  for_each (λ x, echo (f x)) l w
  = (Ret tt, World (answers w) (log w ++ map (λ x, Echo (f x)) l)).
Proof.
  revert w. induction l as [|x l IH]; intros w.
  - simpl. rewrite app_nil_r. by destruct w.
  - cbn [for_each map]. run_cmd. rewrite IH. cbn [answers log].
    by rewrite <- app_assoc.
Qed.

(** X14: [query] prints one line per Item the search gives, in order, and
    nothing else; it reads no answer and never fails.  A line is the
    green label of the citekey, or of the key when the citekey is absent
    or empty, followed by the description of the Item that the menu of
    [pick_item] shows. *)
Theorem query_prints_descriptions (host : Host) (q : option string) (limit : Z) (w : world) :
  query host q limit w
  = (Ret tt,
     World (answers w)
       (log w ++ map (λ item, Echo (style ("[" +:+ citekey_or_key item +:+ "] ") "green"
                                      +:+ describe item))
                  (search_limit host q limit))).
Proof.
  unfold query. rewrite for_each_echo. do 3 f_equal.
  apply map_ext. intros item. f_equal. unfold query_line, describe.
  destruct (truthy (creator item)), (truthy (date item));
    by rewrite ?string_app_assoc.
Qed.

End QueryExtras.

(** ** The commands [read] and [add_note] *)

(** Unfold the plumbing of a session command. *)
Ltac run_io :=
  cbv [mbind Cmd_bind M_bind mret Cmd_ret M_ret lift record_io throw
       run_attachments run_search run_notes run_edit emit echo echo_err
       raise ctx_fail except_ValueError tuple_of];
  cbn [answers log ints bools texts trace].

Section CommandExtras.

Context `{Terminal}.

(** With at most one search result [pick_item] asks nothing. *)
Lemma pick_item_few (zot : Backend) (item_id : string) (w : world) :
  ID_PAT_match item_id = false →
  ¬ (1 < length (search zot item_id))%nat →
  pick_item zot item_id w
  = (match search zot item_id with
     | it :: _ => Ret (Some (key it))
     | [] => Raise (ValueError "Could not find any items for the query.")
     end,
     World (answers w) (log w ++ [Searched item_id])).
Proof.
  intros Hid Hfew. unfold pick_item. rewrite Hid. cbn [negb]. run_cmd.
  destruct (Nat.ltb_spec 1 (length (search zot item_id))); [lia|].
  by destruct (search zot item_id).
Qed.

(** X15: when the identifier does not match the key pattern and the search
    finds nothing, [edit_note], [read] and [add_note] all end in the usage
    failure that carries the message of [pick_item], right after the
    search: no notes or attachments are read and no editor is opened. *)
Theorem unresolved_identifier_is_usage_failure
    (zot : Backend) (host : Host) (item_id : string) :
  ID_PAT_match item_id = false →
  search zot item_id = [] →
  (∀ note_num w,
     edit_note zot item_id note_num w
     = (Raise (UsageError "Could not find any items for the query."),
        World (answers w) (log w ++ [Searched item_id])))
  ∧ (∀ s,
       read zot host item_id s
       = (Raise (UsageError "Could not find any items for the query."),
          Session (ints s) (bools s) (texts s) (trace s ++ [Shown (Searched item_id)])))
  ∧ (∀ format_option s,
       add_note zot item_id format_option s
       = (Raise (UsageError "Could not find any items for the query."),
          Session (ints s) (bools s) (texts s) (trace s ++ [Shown (Searched item_id)]))).
Proof.
  intros Hid Hnone.
  assert (∀ z : Backend, search z item_id = [] → ∀ w,
            pick_item z item_id w
            = (Raise (ValueError "Could not find any items for the query."),
               World (answers w) (log w ++ [Searched item_id]))) as Hpick.
  { intros z Hz w. rewrite pick_item_few; [by rewrite Hz|done|rewrite Hz; simpl; lia]. }
  split; [|split].
  - intros note_num w. unfold edit_note. run_cmd. by rewrite (Hpick zot Hnone).
  - intros s. unfold read. run_io. by rewrite (Hpick zot Hnone).
  - intros format_option s. unfold add_note. run_io.
    destruct (truthy format_option); by rewrite Hpick.
Qed.

(** X16: when the identifier resolves and the item has no attachment,
    [read] ends in a usage failure right after asking the backend: nothing
    is asked of the user, downloaded or opened. *)
Theorem read_without_attachments (zot : Backend) (host : Host) (item_id : string)
    (s : session) (picked : option string) (w1 : world) :
  pick_item zot item_id (World (ints s) []) = (Ret picked, w1) →
  attachments host picked = [] →
  read zot host item_id s
  = (Raise (UsageError "Could not find an attachment for reading."),
     Session (answers w1) (bools s) (texts s)
       (trace s ++ map Shown (log w1) ++ [AttachmentsRead picked])).
Proof.
  intros Hpick Hnone. unfold read. run_io. rewrite Hpick. cbn [answers log].
  rewrite Hnone. rewrite bool_decide_eq_true_2 by done.
  cbn [ints bools texts trace map]. by rewrite app_nil_r, <- app_assoc.
Qed.

(** X17: when the identifier resolves to an item with a single attachment
    that has no local path and the user declines the download, [read] ends
    normally: nothing is downloaded and nothing is opened. *)
Theorem read_declined_download (zot : Backend) (host : Host) (item_id : string)
    (s : session) (picked : option string) (w1 : world) (att : Attachment)
    (later : list bool) :
  pick_item zot item_id (World (ints s) []) = (Ret picked, w1) →
  attachments host picked = [att] →
  att_path att = None →
  bools s = false :: later →
  read zot host item_id s
  = (Ret tt,
     Session (answers w1) later (texts s)
       (trace s ++ map Shown (log w1)
          ++ [AttachmentsRead picked;
              Confirmed "Could not find file locally, do you want to download it?"
                true false])).
Proof.
  intros Hpick Hone Hpath Hno. unfold read. run_io. rewrite Hpick. cbn [answers log].
  rewrite Hone. rewrite bool_decide_eq_false_2 by done.
  cbn [length Nat.ltb Nat.leb]. rewrite Hpath. unfold confirm. cbn [bools]. rewrite Hno.
  cbn [ints bools texts trace]. by rewrite <- !app_assoc.
Qed.

(** X18: when the identifier resolves to an item with a single attachment
    that has no local path and the user accepts the download, the file is
    fetched into the temporary directory and looked for at that directory
    joined with the file name; it is opened when it is there, and
    otherwise [read] ends in a usage failure although the download was
    made. *)
Theorem read_downloads_to_tempdir (zot : Backend) (host : Host) (item_id : string)
    (s : session) (picked : option string) (w1 : world) (att : Attachment)
    (later : list bool) (dir : string) :
  pick_item zot item_id (World (ints s) []) = (Ret picked, w1) →
  attachments host picked = [att] →
  att_path att = None →
  bools s = true :: later →
  tempdir host = Some dir →
  dir ≠ "" → ends_with "/" dir = false → String.prefix "/" (att_filename att) = false →
  let path := dir +:+ "/" +:+ att_filename att in
  let before :=
    trace s ++ map Shown (log w1)
      ++ [AttachmentsRead picked;
          Confirmed "Could not find file locally, do you want to download it?" true true;
          Downloaded att (Some dir)] in
  read zot host item_id s
  = if path_exists host path
    then (Ret tt,
          Session (answers w1) later (texts s)
            (before ++ [Shown (Echo ("Opening '" +:+ path +:+ "'.")); Launched path]))
    else (Raise (UsageError ("Could not find file '" +:+ path +:+ "'")),
          Session (answers w1) later (texts s) before).
Proof.
  intros Hpick Hone Hpath Hyes Htmp Hdir Hslash Hrel path before.
  unfold read. run_io. rewrite Hpick. cbn [answers log].
  rewrite Hone. rewrite bool_decide_eq_false_2 by done.
  cbn [length Nat.ltb Nat.leb]. rewrite Hpath. unfold confirm. cbn [bools]. rewrite Hyes.
  cbn [ints bools texts trace]. unfold os_path_join. rewrite Hrel, Htmp, Hslash.
  apply String.eqb_neq in Hdir. rewrite Hdir. cbn [orb]. fold path.
  destruct (path_exists host path); cbn [ints bools texts trace answers log map];
    unfold before; by rewrite ?app_nil_r, <- !app_assoc.
Qed.

(** X19: when the identifier resolves, [add_note] opens the editor on an
    empty text with the extension of the note format, taken from the
    format option when one is given and from the backend otherwise, and
    creates a note on the resolved item exactly when the editor gives back
    a text that is not empty. *)
Theorem add_note_creates_nonempty_note (zot : Backend) (item_id : string)
    (format_option : option string) (s : session) (picked : option string) (w1 : world) :
  pick_item zot item_id (World (ints s) []) = (Ret picked, w1) →
  let fmt := if truthy format_option then default "" format_option else note_format zot in
  let note_body := edit "" (get_extension fmt) in
  add_note zot item_id format_option s
  = (Ret tt,
     Session (answers w1) (bools s) (texts s)
       (trace s ++ map Shown (log w1)
          ++ [Shown (Edited "" (get_extension fmt) note_body)]
          ++ match note_body with
             | Some text => if String.eqb text "" then [] else [NoteCreated picked text]
             | None => []
             end)).
Proof.
  intros Hpick fmt note_body. unfold add_note.
  set (zot' := if truthy format_option then _ else zot).
  assert (pick_item zot' item_id (World (ints s) []) = (Ret picked, w1)) as Hpick'.
  { rewrite <- Hpick. unfold zot'. by destruct (truthy format_option). }
  assert (note_format zot' = fmt) as Hfmt.
  { unfold zot', fmt. by destruct (truthy format_option). }
  run_io. rewrite Hpick'. cbn [answers log]. rewrite Hfmt. fold note_body.
  destruct note_body as [text|]; cbn [truthy].
  - destruct (String.eqb text "");
      cbn [negb default from_option id ints bools texts trace map];
      by rewrite ?app_nil_r, <- !app_assoc.
  - cbn [ints bools texts trace map]. by rewrite ?app_nil_r, <- !app_assoc.
Qed.

End CommandExtras.

Lemma omap_launch_Shown (l : list event) : omap is_launch (map Shown l) = [].
Proof. induction l as [|e l IH]; [done|]. by cbn. Qed.

Section ReadInvariant.

Context `{Terminal}.

(** X20: whatever the backend, the machine and the user do, [read] only
    adds to the trace, and it starts at most one program: when it does,
    the path it opens exists and [read] ends normally. *)
Theorem read_opens_only_existing_files (zot : Backend) (host : Host) (item_id : string)
    (s : session) :
  ∃ evs,
    trace (snd (read zot host item_id s)) = trace s ++ evs
    ∧ (omap is_launch evs = []
       ∨ ∃ path, omap is_launch evs = [path]
                 ∧ path_exists host path = true
                 ∧ fst (read zot host item_id s) = Ret tt).
Proof.
  unfold read, confirm. run_io.
  repeat case_match; simplify_eq; cbn [fst snd ints bools texts trace answers log map].
  all: eexists; (split; [rewrite <- ?app_assoc; reflexivity|]).
  all: rewrite ?omap_app, ?omap_launch_Shown; cbn [omap is_launch app]; eauto.
Qed.

End ReadInvariant.

(** ** The command [configure] *)


Lemma discovery_raises (environ : gmap string Fs.path) (fs : Fs.node) :
  environ !! "HOME" = None
  ∨ (∃ home_dir, environ !! "HOME" = Some home_dir
       ∧ (Fs.listdir fs (home_dir ++ [".mozilla"; "firefox"]) = None
          ∨ Fs.listdir fs (home_dir ++ [".zotero"]) = None)) →
  ∃ e, raised (find_storage_directories environ fs) = Some e.
Proof.
  unfold find_storage_directories, Fs.iterdir, chain.
  intros [->|(home_dir & -> & [Hff|Hzot])].
  - by eexists.
  - rewrite Hff. by eexists.
  - rewrite Hzot. destruct (Fs.listdir fs (home_dir ++ [".mozilla"; "firefox"])); by eexists.
Qed.

Lemma zip_self_lookup {A} (l : list A) (j : nat) (x : A) :
  l !! j = Some x → zip l l !! j = Some (x, x).
Proof.
  revert j. induction l as [|y l IH]; intros [|j] Hj; try done.
  - by injection Hj as ->.
  - by apply IH.
Qed.

Section ConfigureExtras.

Context `{Terminal}.

Lemma select_accepts_head {A} (choices : list (A * string)) prompt default required
    (i : nat) (obj : A) (label : string) (rest : list Z) :
  choices !! i = Some (obj, label) →
  select choices prompt default required (World (Z.of_nat i :: rest) [])
  = (Ret (Some obj), World rest (menu 0 choices ++ [Prompted prompt default (Z.of_nat i)])).
Proof.
  intros Hi. rewrite select_unfold. cbn [answers log app].
  pose proof (lookup_lt_Some _ _ _ Hi) as Hlt.
  rewrite (select_loop_accepts choices prompt default required [] (Z.of_nat i) rest).
  - destruct (Z.eqb_spec (Z.of_nat i) (-1)); [lia|].
    rewrite Nat2Z.id, Hi. done.
  - constructor.
  - unfold cutoff_of. destruct required; simpl; lia.
Qed.

(** X21: [configure] cannot complete when [HOME] is not set or when one of
    the two profile containers, [~/.mozilla/firefox] and [~/.zotero],
    cannot be listed: the exception of the discovery, or an earlier one,
    ends it, whatever the user answers. *)
Theorem configure_needs_both_containers (host : Host) (setup : Setup) (s : session) :
  setup_environ setup !! "HOME" = None
  ∨ (∃ home_dir, setup_environ setup !! "HOME" = Some home_dir
       ∧ (Fs.listdir (setup_fs setup) (home_dir ++ [".mozilla"; "firefox"]) = None
          ∨ Fs.listdir (setup_fs setup) (home_dir ++ [".zotero"]) = None)) →
  ∃ e s', configure host setup s = (Raise e, s').
Proof.
  intros [e0 Hraised]%discovery_raises.
  unfold configure, confirm, ask. run_io. rewrite Hraised.
  repeat case_match; simplify_eq; eauto.
Qed.


(** X23: a run of [configure] for a user who has a key and picks a
    discovered profile and a format.  What is saved as storage directory
    is the first component of the discovered pair, the suffix of the
    profile name, not the storage path; the configuration is saved before
    the backend is opened, so it stays saved when the backend or the
    first synchronisation fails. *)
Theorem configure_saves_profile_suffix (host : Host) (setup : Setup) (s : session)
    (later : list bool) (api_key library_id : string) (more : list string)
    (dirs : list (string * Fs.path)) (i : nat) (name : string) (path : Fs.path)
    (m j : nat) (fmt : string) (rest : list Z) :
  bools s = true :: later →
  texts s = api_key :: library_id :: more →
  find_storage_directories (setup_environ setup) (setup_fs setup) = Generated dirs None →
  dirs !! i = Some (name, path) →
  list_index "markdown" (pandoc_formats setup) = Some m →
  pandoc_formats setup !! j = Some fmt →
  ints s = Z.of_nat i :: Z.of_nat j :: rest →
  let formats := pandoc_formats setup in
  let cfg := {| cfg_api_key := api_key; cfg_library_id := library_id;
                cfg_storage_directory := name; cfg_note_format := Some fmt;
                cfg_sync_interval := 300 |} in
  let saved :=
    trace s
      ++ [Confirmed "Do you already have an API key for zotero-cli?" false true;
          Asked "Please enter the API key for zotero-cli" api_key;
          Asked "Please enter your library ID" library_id]
      ++ map Shown (menu 0 (map storage_option dirs)
                      ++ [Prompted "Please select a storage directory (-1 to enter manually)"
                            0 (Z.of_nat i)])
      ++ map Shown (menu 0 (zip formats formats)
                      ++ [Prompted "Select markup format for notes"
                            (Z.of_nat m) (Z.of_nat j)])
      ++ [ConfigSaved cfg] in
  let opened :=
    saved ++ [BackendOpened api_key library_id; Shown (Echo "Initializing local index...")] in
  configure host setup s
  = match backend_error setup api_key library_id with
    | Some e => (Raise e, Session rest later more saved)
    | None =>
        match synchronize_result setup api_key library_id with
        | Raise e => (Raise e, Session rest later more opened)
        | Ret n =>
            (Ret tt,
             Session rest later more
               (opened ++ [Synchronized n;
                           Shown (Echo ("Synchronized " +:+ PyStr.of_int n +:+ " items."))]))
        end
    end.
Proof.
  intros Hbools Htexts Hdirs Hi Hm Hj Hints formats cfg saved opened.
  assert (dirs ≠ []) as Hne by (by intros ->).
  assert (map storage_option dirs !! i = Some (name, snd (storage_option (name, path))))
    as Hopt by (by rewrite list_lookup_fmap, Hi).
  assert (zip formats formats !! j = Some (fmt, fmt)) as Hfmt
    by (by apply zip_self_lookup).
  unfold configure, confirm, ask. run_io.
  rewrite Hbools. cbn [negb ints bools texts trace]. rewrite Htexts.
  cbn [ints bools texts trace]. rewrite Hdirs. cbn [raised yielded].
  rewrite bool_decide_eq_false_2 by done. rewrite Hints.
  cbn [ints bools texts trace].
  rewrite (select_accepts_head _ _ _ _ _ _ _ _ Hopt).
  cbn [answers log ints bools texts trace].
  rewrite Hm. fold formats. cbn [ints bools texts trace].
  rewrite (select_accepts_head _ _ _ _ _ _ _ _ Hfmt). cbn [answers log ints bools texts trace].
  fold cfg.
  destruct (backend_error setup api_key library_id) as [e|].
  - unfold saved. cbn [ints bools texts trace]. rewrite <- !app_assoc. reflexivity.
  - destruct (synchronize_result setup api_key library_id) as [n|e];
      unfold opened, saved; cbn [ints bools texts trace];
      rewrite <- !app_assoc; reflexivity.
Qed.


End ConfigureExtras.

(** ** Runs of the further properties on the sample inputs *)

Lemma select_returns_first_accepted_witness :
  select [(1%nat, "a"); (2%nat, "b")] "p" 0 true (World ([5; -1] ++ 1 :: [9]) [])
  = (Ret (Some 2%nat),
     World [9]
       ([] ++ menu 0 [(1%nat, "a"); (2%nat, "b")]
          ++ ([5; -1] ≫= rejection [(1%nat, "a"); (2%nat, "b")] "p" 0 true)
          ++ [Prompted "p" 0 1])).
Proof.
  apply (select_returns_first_accepted [(1%nat, "a"); (2%nat, "b")] "p" 0 true [5; -1] 1 [9] []).
  - constructor; [right; simpl; lia|].
    constructor; [left; unfold cutoff_of; simpl; lia|]. constructor.
  - unfold cutoff_of. simpl. lia.
Defined.

Lemma select_raises_only_Abort_witness :
  Abort = Abort
  ∧ answers (snd (select [(1%nat, "a")] "p" 0 true (World [4; 5] []))) = []
  ∧ Forall (out_of_range [(1%nat, "a")] true) [4; 5].
Proof.
  apply (select_raises_only_Abort [(1%nat, "a")] "p" 0 true (World [4; 5] [])
           (snd (select [(1%nat, "a")] "p" 0 true (World [4; 5] [])))).
  vm_compute. reflexivity.
Defined.

Lemma select_without_choices_witness :
  ∃ w', select (A:=nat) [] "p" 0 true (World [0; 1; -1] []) = (Raise Abort, w').
Proof.
  exact (proj1 (select_without_choices "p" 0 (World [0; 1; -1] []))).
Defined.

Lemma pick_item_returns_found_key_witness :
  ID_PAT_match "one" = false ∧ ∃ it, it ∈ search Sample.zot "one" ∧ key it = "BBBB2222".
Proof.
  apply (pick_item_returns_found_key Sample.zot "one" "BBBB2222" Sample.quiet
           (World [] [Searched "one"])).
  reflexivity.
Defined.

Lemma edit_note_negative_number_witness :
  edit_note Demo.zot_two_notes "one" (Some (-1)) Sample.quiet
  = edit_note Demo.zot_two_notes "one" (Some (-1 + 2)) Sample.quiet.
Proof.
  apply (edit_note_negative_number Demo.zot_two_notes "one" (-1) Sample.quiet
           (World [] [Searched "one"]) (Some "BBBB2222")).
  - reflexivity.
  - simpl. lia.
Defined.

Lemma edit_note_saves_nonempty_text_witness :
  @edit_note Demo.busy_terminal Demo.zot_two_notes "one" (Some 1) Sample.quiet
  = (Ret tt,
     World []
       ([Searched "one"]
          ++ [NotesRead (Some "BBBB2222"); Edited "second" ".md" (Some "second!")]
          ++ [NoteSaved {| note_key := "NNNN0002"; note_text := "second!" |}])).
Proof.
  apply (@edit_note_saves_nonempty_text Demo.busy_terminal Demo.zot_two_notes "one" 1
           Sample.quiet (World [] [Searched "one"]) (Some "BBBB2222")
           {| note_key := "NNNN0002"; note_text := "second" |}).
  - reflexivity.
  - reflexivity.
Defined.

Lemma edit_note_single_note_skips_menu_witness :
  edit_note Sample.zot "one" None Sample.quiet
  = edit_note Sample.zot "one" (Some 0) Sample.quiet.
Proof.
  apply (edit_note_single_note_skips_menu Sample.zot "one" Sample.quiet
           (World [] [Searched "one"]) (Some "BBBB2222")
           {| note_key := "NNNN0001"; note_text := "hi" |}).
  - reflexivity.
  - reflexivity.
Defined.

Lemma get_extension_distinct_witness :
  get_extension "html" ≠ "" ∧ "html" = "html".
Proof.
  split.
  - exact (proj1 (get_extension_distinct "html" "html")).
  - apply (proj2 (get_extension_distinct "html" "html")); reflexivity.
Defined.

Lemma find_storage_directories_failures_witness :
  find_storage_directories ∅ Sample.fs = Generated [] (Some (KeyError "HOME"))
  ∧ find_storage_directories Sample.environ (Fs.Dir [])
    = Generated [] (Some OSError).
Proof.
  split.
  - apply (proj1 (find_storage_directories_failures ∅ Sample.fs)). reflexivity.
  - apply (proj1 (proj2 (find_storage_directories_failures Sample.environ (Fs.Dir [])))
             ["home"; "u"]); reflexivity.
Defined.

Lemma unresolved_identifier_is_usage_failure_witness :
  read Sample.zot Demo.host "nothing" Demo.idle
  = (Raise (UsageError "Could not find any items for the query."),
     Session [] [] [] ([] ++ [Shown (Searched "nothing")])).
Proof.
  apply (proj1 (proj2 (unresolved_identifier_is_usage_failure Sample.zot Demo.host "nothing"
                         eq_refl eq_refl))).
Defined.

Lemma read_without_attachments_witness :
  read Sample.zot Demo.host_without_attachments "one" Demo.idle
  = (Raise (UsageError "Could not find an attachment for reading."),
     Session [] [] []
       ([] ++ map Shown [Searched "one"] ++ [AttachmentsRead (Some "BBBB2222")])).
Proof.
  apply (read_without_attachments Sample.zot Demo.host_without_attachments "one" Demo.idle
           (Some "BBBB2222") (World [] [Searched "one"])); reflexivity.
Defined.

Lemma read_declined_download_witness :
  read Sample.zot Demo.host "one" (Session [] [false] [] [])
  = (Ret tt,
     Session [] [] []
       ([] ++ map Shown [Searched "one"]
          ++ [AttachmentsRead (Some "BBBB2222");
              Confirmed "Could not find file locally, do you want to download it?"
                true false])).
Proof.
  apply (read_declined_download Sample.zot Demo.host "one" (Session [] [false] [] [])
           (Some "BBBB2222") (World [] [Searched "one"]) Demo.paper []); reflexivity.
Defined.

Lemma read_downloads_to_tempdir_witness :
  fst (read Sample.zot Demo.host "one" (Session [] [true] [] [])) = Ret tt
  ∧ Launched "/tmp/p.pdf"
      ∈ trace (snd (read Sample.zot Demo.host "one" (Session [] [true] [] []))).
Proof.
  rewrite (read_downloads_to_tempdir Sample.zot Demo.host "one" (Session [] [true] [] [])
             (Some "BBBB2222") (World [] [Searched "one"]) Demo.paper [] "/tmp");
    [|reflexivity|reflexivity|reflexivity|reflexivity|reflexivity|discriminate
     |reflexivity|reflexivity].
  split; [reflexivity|].
  vm_compute. repeat constructor.
Defined.

Lemma add_note_creates_nonempty_note_witness :
  @add_note Demo.busy_terminal Sample.zot "one" (Some "latex") Demo.idle
  = (Ret tt,
     Session [] [] []
       ([] ++ map Shown [Searched "one"]
          ++ [Shown (Edited "" "tex" (Some "!"))]
          ++ [NoteCreated (Some "BBBB2222") "!"])).
Proof.
  apply (@add_note_creates_nonempty_note Demo.busy_terminal Sample.zot "one" (Some "latex")
           Demo.idle (Some "BBBB2222") (World [] [Searched "one"])).
  reflexivity.
Defined.

Lemma configure_needs_both_containers_witness :
  ∃ e s', configure Demo.host Demo.setup_without_home
            (Session [0; 1] [true] ["key"; "lib"] []) = (Raise e, s').
Proof.
  apply (configure_needs_both_containers Demo.host Demo.setup_without_home).
  left. reflexivity.
Defined.


Lemma configure_saves_profile_suffix_witness :
  ∃ tr,
    configure Demo.host Demo.setup (Session [0; 2] [true] ["key"; "lib"] [])
    = (Ret tt, Session [] [] [] tr)
    ∧ ConfigSaved {| cfg_api_key := "key"; cfg_library_id := "lib";
                     cfg_storage_directory := "default";
                     cfg_note_format := Some "latex";
                     cfg_sync_interval := 300 |} ∈ tr.
Proof.
  eexists. split.
  - apply (configure_saves_profile_suffix Demo.host Demo.setup
             (Session [0; 2] [true] ["key"; "lib"] []) [] "key" "lib" []
             [("default", Sample.firefox_dir ++ ["abcd1234.default"; "zotero"; "storage"])]
             0 "default" (Sample.firefox_dir ++ ["abcd1234.default"; "zotero"; "storage"])
             1 2 "latex" []); reflexivity.
  - vm_compute. repeat constructor.
Defined.

